(** * The Onboardbase provider client of external-secrets

    A shallow embedding of [pkg/provider/onboardbase/client/client.go]:
    the request, response and decrypt pipeline of [OnboardbaseClient],
    with the properties its specification states about it.

    Conventions of the embedding.
    - A Go [string] and a Go [[]byte] are both a Rocq [string] (a sequence
      of 8-bit characters), so [string(b)] is the identity; a slice that the
      code sets to, or compares with, [nil] is an [option].
    - A Go [map[string]string] value is an [option (gmap string string)]:
      [None] is the nil map, on which an index expression yields the zero
      value.
    - A function returning [(T, error)] returns a pair of options, since
      [performRequest] returns both a response and an error on some paths.
    - An [error] produced by a library is kept as its [Error()] text.
    - Functions of libraries outside the package ([net/url], [net/http],
      [encoding/json], the AES decryptor) are variables of the section
      that holds the client's methods. *)

From Stdlib Require Import ZArith String Ascii List Lia DecimalString.
From stdpp Require Import base option gmap strings list fin_maps.

Local Open Scope Z_scope.

(** ** Strings: the functions of [strings] and [fmt] the client uses *)

Module strings.

(** [strings.HasPrefix(s, prefix)]. *)
Definition HasPrefix (s prefix : string) : bool := String.prefix prefix s.

(** [strings.HasSuffix(s, suffix)]. *)
Definition HasSuffix (s suffix : string) : bool :=
  let n := String.length s in
  let k := String.length suffix in
  if (k <=? n)%nat
  then bool_decide (String.substring (n - k) k s = suffix)
  else false.

(** [strings.TrimSuffix(s, suffix)]: [s] without the trailing [suffix],
    or [s] itself when it does not end with it. *)
Definition TrimSuffix (s suffix : string) : string :=
  if HasSuffix s suffix
  then String.substring 0 (String.length s - String.length suffix) s
  else s.

(** [strings.Join(elems, sep)]. *)
Definition Join (elems : list string) (sep : string) : string :=
  String.concat sep elems.

End strings.

Module fmt.

(** The verb [%d] of [fmt.Sprintf] on an [int]. *)
Definition d (n : Z) : string := NilZero.string_of_int (Z.to_int n).

End fmt.

(** The line feed of the Go literal ["\n"]. *)
Definition LF : string := String (ascii_of_nat 10) EmptyString.

(** ** Data model *)

(** A library error, by its message. *)
Definition error : Type := string.

(** The outcome of a library call of type [(T, error)] whose value the
    client reads only when the error is nil. *)
Inductive result (A : Type) : Type :=
| Ok (a : A)
| Fail (err : error).
Arguments Ok {A} a.
Arguments Fail {A} err.

Abbreviation queryParams := (gmap string string).

(** [headers]: a Go map, given by its entries in the order in which the
    [range] statement of [performRequest] visits them. *)
Definition headers : Type := list (string * string).

Definition httpRequestBody : Type := option string.

Abbreviation Secrets := (option (gmap string string)).

Record RawSecret := {
  RawSecret_Key : string;
  RawSecret_Value : string
}.

Record APIError := {
  APIError_Err : option error;
  APIError_Message : string;
  APIError_Data : string
}.

Record apiErrorResponse := {
  Messages : list string;
  Success : bool
}.

Record SecretRequest := {
  SecretRequest_Environment : string;
  SecretRequest_Project : string;
  SecretRequest_Name : string
}.

Record SecretsRequest := {
  SecretsRequest_Environment : string;
  SecretsRequest_Project : string
}.

Record secretResponseBodyObject := {
  Title : string;
  Id : string
}.

Record secretResponseBodyData := {
  Data_Project : secretResponseBodyObject;
  Data_Environment : secretResponseBodyObject;
  Data_Team : secretResponseBodyObject;
  Data_Secrets : list string
}.

Record secretResponseBody := {
  Body_Data : secretResponseBodyData;
  Body_Message : string;
  Body_Status : string
}.

Record SecretResponse := {
  SecretResponse_Name : string;
  SecretResponse_Value : string
}.

Record SecretsResponse := {
  SecretsResponse_Secrets : Secrets;
  SecretsResponse_Body : option string
}.

(** [e.Error()]. *)
Definition APIError_Error (e : APIError) : string :=
  let message := "Onboardbase API Client Error: " +:+ APIError_Message e in
  let message :=
    match APIError_Err e with
    | Some underlyingError => message +:+ LF +:+ underlyingError
    | None => message
    end in
  if bool_decide (APIError_Data e ≠ "")
  then message +:+ LF +:+ "Data: " +:+ APIError_Data e
  else message.

(** The index expression [m[k]] on a [map[string]string]. *)
Definition index (m : Secrets) (k : string) : string :=
  match m with
  | Some kv => default "" (kv !! k)
  | None => ""
  end.

(** ** Query parameters *)

Definition SecretsRequest_buildQueryParams (r : SecretsRequest) : queryParams :=
  let params : queryParams := ∅ in
  let params :=
    if bool_decide (SecretsRequest_Project r ≠ "")
    then <["project" := SecretsRequest_Project r]> params else params in
  let params :=
    if bool_decide (SecretsRequest_Environment r ≠ "")
    then <["environment" := SecretsRequest_Environment r]> params else params in
  params.

Definition SecretRequest_buildQueryParams (r : SecretRequest) : queryParams :=
  let params : queryParams := ∅ in
  let params :=
    if bool_decide (SecretRequest_Project r ≠ "")
    then <["project" := SecretRequest_Project r]> params else params in
  let params :=
    if bool_decide (SecretRequest_Environment r ≠ "")
    then <["environment" := SecretRequest_Environment r]> params else params in
  params.

(** ** The library types the client handles *)

(** [url.Userinfo]: immutable once built. *)
Record Userinfo := {
  username : string;
  password : string;
  passwordSet : bool
}.

(** [url.URL], field by field. [User] points to an immutable value and is
    kept by value. *)
Record URL := {
  Scheme : string;
  Opaque : string;
  User : option Userinfo;
  Host : string;
  Path : string;
  RawPath : string;
  OmitHost : bool;
  ForceQuery : bool;
  RawQuery : string;
  Fragment : string;
  RawFragment : string
}.

(** The assignment [u.Scheme = scheme]. *)
Definition URL_set_Scheme (u : URL) (scheme : string) : URL :=
  {| Scheme := scheme; Opaque := Opaque u; User := User u; Host := Host u;
     Path := Path u; RawPath := RawPath u; OmitHost := OmitHost u;
     ForceQuery := ForceQuery u; RawQuery := RawQuery u;
     Fragment := Fragment u; RawFragment := RawFragment u |}.

(** The assignment [u.RawQuery = q]. *)
Definition URL_set_RawQuery (u : URL) (q : string) : URL :=
  {| Scheme := Scheme u; Opaque := Opaque u; User := User u; Host := Host u;
     Path := Path u; RawPath := RawPath u; OmitHost := OmitHost u;
     ForceQuery := ForceQuery u; RawQuery := q;
     Fragment := Fragment u; RawFragment := RawFragment u |}.

(** [http.Header] and [url.Values]: both [map[string][]string]. *)
Abbreviation Header := (gmap string (list string)).
Abbreviation Values := (gmap string (list string)).

(** [v.Add(key, value)] of [url.Values]. *)
Definition Values_Add (v : Values) (key value : string) : Values :=
  <[key := default [] (v !! key) ++ [value]]> v.

(** [http.Request]: the fields [performRequest] reads or writes. *)
Record Request := {
  Request_Method : string;
  Request_URL : URL;
  Request_Header : Header;
  Request_Body : option string
}.

(** [http.Response]: [Response_Body] is what [io.ReadAll(r.Body)] yields. *)
Record Response := {
  StatusCode : Z;
  Response_Header : Header;
  Response_Body : result string
}.

Record apiResponse := {
  HTTPResponse : Response;
  Body : option string
}.

(** [http.Client] with the transport settings the constructor chooses;
    [Timeout] is in nanoseconds. *)
Record http_Client := {
  Timeout : Z;
  Transport_DisableKeepAlives : bool;
  Transport_TLSClientConfig_MinVersion : Z
}.

(** [tls.VersionTLS12] and [time.Second]. *)
Definition tls_VersionTLS12 : Z := 0x0303.
Definition time_Second : Z := 1000000000.

(** Addresses of [url.URL] values, and the store that holds them: the
    client keeps a pointer to its base URL. *)
Abbreviation loc := positive.
Abbreviation heap := (gmap positive URL).

Record OnboardbaseClient := {
  baseURL : option loc;
  OnboardbaseAPIKey : string;
  VerifyTLS : bool;
  UserAgent : string;
  OnboardbasePassCode : string;
  httpClient : http_Client
}.

(** The assignment [c.baseURL = p]. *)
Definition OnboardbaseClient_set_baseURL
    (c : OnboardbaseClient) (p : option loc) : OnboardbaseClient :=
  {| baseURL := p; OnboardbaseAPIKey := OnboardbaseAPIKey c;
     VerifyTLS := VerifyTLS c; UserAgent := UserAgent c;
     OnboardbasePassCode := OnboardbasePassCode c;
     httpClient := httpClient c |}.

(** [new(url.URL)] holding [u]: a location the store does not use yet. *)
Definition alloc (h : heap) (u : URL) : loc * heap :=
  let p := fresh (dom h) in (p, <[p := u]> h).

(** [func (c *OnboardbaseClient) BaseURL() *url.URL]: copies the value
    [c.baseURL] points to into a new location. [None] is the run-time
    panic of dereferencing a nil [c.baseURL]. *)
Definition BaseURL (h : heap) (c : OnboardbaseClient) : option (loc * heap) :=
  p ← baseURL c;
  u ← h !! p;
  Some (alloc h u).

Definition isSuccess (statusCode : Z) : bool :=
  ((200 <=? statusCode) && (statusCode <=? 299))
  || ((300 <=? statusCode) && (statusCode <=? 399)).

(** ** The provider's view of a store

    The declarations of the store types belong to the API package; the
    fields below are those [provider.go] reads. A field the provider
    compares with [nil], or reads through a pointer, is an [option]. *)

(** [esmeta.SecretKeySelector]. *)
Record SecretKeySelector := {
  Selector_Name : string;
  Selector_Namespace : option string;
  Selector_Key : string
}.

Record OnboardbaseAuthSecretRef := {
  Auth_OnboardbaseAPIKey : SecretKeySelector;
  Auth_OnboardbasePasscode : SecretKeySelector
}.

(** [esv1beta1.OnboardbaseProvider]. *)
Record OnboardbaseProvider := {
  Provider_Auth : option OnboardbaseAuthSecretRef;
  Provider_Project : string;
  Provider_Environment : string
}.

(** [esv1beta1.SecretStoreProvider] and [esv1beta1.SecretStoreSpec]. *)
Record SecretStoreProvider := {
  Onboardbase : option OnboardbaseProvider
}.

Record SecretStoreSpec := {
  Provider : option SecretStoreProvider
}.

(** [esv1beta1.GenericStore]: what [GetSpec()] and
    [GetObjectKind().GroupVersionKind().Kind] return. *)
Record GenericStore := {
  GetSpec : option SecretStoreSpec;
  GetObjectKind_Kind : string
}.

(** [kclient.Client] and [context.Context]: handles the provider only
    passes on. *)
Inductive kclient_Client : Type := kclient_handle (id : positive).
Inductive context_Context : Type := context_handle (id : positive).

(** The provider's [Client]: the fields [NewClient] writes. *)
Record provider_Client := {
  Client_kube : kclient_Client;
  Client_store : option OnboardbaseProvider;
  Client_namespace : string;
  Client_storeKind : string;
  Client_onboardbaseAPIKey : string;
  Client_onboardbasePasscode : string;
  Client_onboardbase : option OnboardbaseClient;
  Client_project : string;
  Client_environment : string
}.

(** The three assignments at the end of [NewClient]. *)
Definition provider_Client_set_onboardbase (client : provider_Client)
    (onboardbase : option OnboardbaseClient) (project environment : string)
    : provider_Client :=
  {| Client_kube := Client_kube client;
     Client_store := Client_store client;
     Client_namespace := Client_namespace client;
     Client_storeKind := Client_storeKind client;
     Client_onboardbaseAPIKey := Client_onboardbaseAPIKey client;
     Client_onboardbasePasscode := Client_onboardbasePasscode client;
     Client_onboardbase := onboardbase;
     Client_project := project;
     Client_environment := environment |}.

Inductive SecretStoreCapabilities : Type :=
| SecretStoreReadOnly
| SecretStoreWriteOnly
| SecretStoreReadWrite.

Definition errNewClient (err : string) : string :=
  "unable to create OnboardbaseClient : " +:+ err.
Definition errInvalidStore (err : string) : string :=
  "invalid store: " +:+ err.
Definition errOnboardbaseStore : string :=
  "missing or invalid Onboardbase SecretStore".

(** ** Test doubles

    Stand-ins for the libraries and for the remote service, used to run
    the client on concrete exchanges. Each is a total function given by a
    finite table or a few lines, and agrees with the library on the inputs
    of the exchanges below. *)

Module fixture.

(** The entry of key [k] in a table. *)
Fixpoint assoc {A : Type} (k : string) (table : list (string * A)) : option A :=
  match table with
  | [] => None
  | (k', a) :: table => if String.eqb k k' then Some a else assoc k table
  end.

(** A decryptor that knows the plaintext and passphrase of each
    ciphertext of [table] and refuses everything else. *)
Definition Run (table : list (string * (string * string)))
    (ciphertext passphrase : string) : result string :=
  match assoc ciphertext table with
  | Some (pass, plaintext) =>
      if String.eqb pass passphrase then Ok plaintext
      else Fail "malformed UTF-8 in plaintext"
  | None => Fail "invalid ciphertext"
  end.

(** A JSON decoder that accepts exactly the documents of [table]. *)
Definition Unmarshal {A : Type} (table : list (string * A)) (doc : string)
    : result A :=
  match assoc doc table with
  | Some a => Ok a
  | None => Fail "invalid character looking for beginning of value"
  end.

(** [url.Parse] on [scheme://host/path]; anything else is refused. *)
Definition Parse (s : string) : result URL :=
  match String.index 0 "://" s with
  | Some i =>
      let rest := String.substring (i + 3) (String.length s - (i + 3)) s in
      let j := default (String.length rest) (String.index 0 "/" rest) in
      Ok {| Scheme := String.substring 0 i s; Opaque := ""; User := None;
            Host := String.substring 0 j rest;
            Path := String.substring j (String.length rest - j) rest;
            RawPath := ""; OmitHost := false; ForceQuery := false;
            RawQuery := ""; Fragment := ""; RawFragment := "" |}
  | None => Fail "missing protocol scheme"
  end.

(** [u.String()] on the URLs [Parse] yields, with a query if there is one. *)
Definition URL_String (u : URL) : string :=
  Scheme u +:+ "://" +:+ Host u +:+ Path u
  +:+ (if String.eqb (RawQuery u) "" then "" else "?" +:+ RawQuery u).

(** [u.Query()] on a URL without a query. *)
Definition Query (u : URL) : Values := ∅.

(** [v.Encode()] on values that need no escaping; the keys come in the
    order of the map. *)
Definition Encode (v : Values) : string :=
  String.concat "&"
    (flat_map (λ kvs, map (λ value, kvs.1 +:+ "=" +:+ value) kvs.2)
              (map_to_list v)).

Definition is_lower (a : ascii) : bool :=
  (97 <=? nat_of_ascii a)%nat && (nat_of_ascii a <=? 122)%nat.
Definition is_upper (a : ascii) : bool :=
  (65 <=? nat_of_ascii a)%nat && (nat_of_ascii a <=? 90)%nat.
Definition is_digit (a : ascii) : bool :=
  (48 <=? nat_of_ascii a)%nat && (nat_of_ascii a <=? 57)%nat.

(** The bytes of an HTTP token. *)
Definition validHeaderFieldByte (a : ascii) : bool :=
  is_lower a || is_upper a || is_digit a
  || existsb (Ascii.eqb a) (list_ascii_of_string "!#$%&'*+-.^_`|~").

Definition to_upper (a : ascii) : ascii :=
  if is_lower a then ascii_of_nat (nat_of_ascii a - 32) else a.
Definition to_lower (a : ascii) : ascii :=
  if is_upper a then ascii_of_nat (nat_of_ascii a + 32) else a.

Fixpoint capitalize (upper : bool) (s : string) : string :=
  match s with
  | EmptyString => EmptyString
  | String a s =>
      String (if upper then to_upper a else to_lower a)
             (capitalize (Ascii.eqb a "-") s)
  end.

(** [textproto.CanonicalMIMEHeaderKey]: a key made of token bytes gets an
    upper-case letter first and after each hyphen, lower-case letters
    elsewhere; any other key is left as it is. *)
Definition CanonicalMIMEHeaderKey (s : string) : string :=
  if forallb validHeaderFieldByte (list_ascii_of_string s)
  then capitalize true s else s.

(** [http.NewRequest] for a method the library knows: the parsed URL and
    no header yet. *)
Definition NewRequest (method url : string) (body : option string)
    : result Request :=
  match Parse url with
  | Ok u => Ok {| Request_Method := method; Request_URL := u;
                  Request_Header := ∅; Request_Body := body |}
  | Fail err => Fail err
  end.

(** A remote service that answers every request with [answer]. *)
Definition Do (answer : result Response) (_ : http_Client) (_ : Request)
    : result Response := answer.

(** The value [url.Parse] gives for the client's base URL, the store that
    holds it at address 1, and a client as the constructor builds it. *)
Definition base : URL :=
  {| Scheme := "https"; Opaque := ""; User := None;
     Host := "public.onboardbase.com"; Path := "/api/v1"; RawPath := "";
     OmitHost := false; ForceQuery := false; RawQuery := "";
     Fragment := ""; RawFragment := "" |}.

Definition store : heap := {[ 1%positive := base ]}.

Definition client (key passcode : string) : OnboardbaseClient :=
  {| baseURL := Some 1%positive;
     OnboardbaseAPIKey := key;
     VerifyTLS := true;
     UserAgent := "onboardbase-external-secrets";
     OnboardbasePassCode := passcode;
     httpClient := {| Timeout := 10 * time_Second;
                      Transport_DisableKeepAlives := true;
                      Transport_TLSClientConfig_MinVersion := tls_VersionTLS12 |}
  |}.

(** A response with one [content-type] header. *)
Definition response (status : Z) (contentType body : string) : Response :=
  {| StatusCode := status;
     Response_Header := {[ "Content-Type" := [contentType] ]};
     Response_Body := Ok body |}.

(** JSON text: a quoted string, a field, an object, an array. *)
Definition quote : string := String (ascii_of_nat 34) EmptyString.
Definition str (s : string) : string := quote +:+ s +:+ quote.
Definition field (name value : string) : string := str name +:+ ":" +:+ value.
Definition obj (fields : list string) : string :=
  "{" +:+ String.concat "," fields +:+ "}".
Definition arr (items : list string) : string :=
  "[" +:+ String.concat "," items +:+ "]".

(** The plaintext of a record, and the record it decodes to. *)
Definition plaintext (key value : string) : string :=
  obj [field "key" (str key); field "value" (str value)].

Definition record (key value : string) : RawSecret :=
  {| RawSecret_Key := key; RawSecret_Value := value |}.

(** Four envelopes sealed with the passcode [p1]: two records with keys
    of their own, a third that bears the key of the first again, and one
    whose plaintext is no JSON document. *)
Definition enc1 : string := "U2FsdGVkX1+enc1".
Definition enc2 : string := "U2FsdGVkX1+enc2".
Definition enc3 : string := "U2FsdGVkX1+enc3".
Definition encBad : string := "U2FsdGVkX1+encBad".

Definition envelopes : list (string * (string * string)) :=
  [ (enc1, ("p1", plaintext "DB_URL" "postgres://x"));
    (enc2, ("p1", plaintext "API_TOKEN" "t0k3n"));
    (enc3, ("p1", plaintext "DB_URL" "postgres://y"));
    (encBad, ("p1", "DB_URL=postgres://x")) ].

Definition records : list (string * RawSecret) :=
  [ (plaintext "DB_URL" "postgres://x", record "DB_URL" "postgres://x");
    (plaintext "API_TOKEN" "t0k3n", record "API_TOKEN" "t0k3n");
    (plaintext "DB_URL" "postgres://y", record "DB_URL" "postgres://y") ].

(** The body the service sends for a list of envelopes, and what it
    decodes to. *)
Definition bodyOf (secrets : list string) : string :=
  obj [field "data" (obj [field "secrets" (arr (map str secrets))]);
       field "status" (str "ok")].

Definition payloadOf (secrets : list string) : secretResponseBody :=
  let none := {| Title := ""; Id := "" |} in
  {| Body_Data := {| Data_Project := none; Data_Environment := none;
                     Data_Team := none; Data_Secrets := secrets |};
     Body_Message := ""; Body_Status := "ok" |}.

Definition bodies : list (string * secretResponseBody) :=
  map (λ secrets, (bodyOf secrets, payloadOf secrets))
      [ []; [enc1]; [enc1; enc2]; [enc1; enc2; enc3]; [enc1; encBad] ].

(** The error envelope of the service. *)
Definition notFoundBody : string :=
  obj [field "messages" (arr [str "not found"]); field "success" "false"].

Definition errorBodies : list (string * apiErrorResponse) :=
  [ (notFoundBody, {| Messages := ["not found"]; Success := false |}) ].

(** [setAuth] over a cluster whose secrets hold the API key [obb_key]
    and the passcode [p1]: it fills both credentials of the client. *)
Definition setAuth (_ : context_Context) (client : provider_Client)
    : provider_Client * option error :=
  ({| Client_kube := Client_kube client;
      Client_store := Client_store client;
      Client_namespace := Client_namespace client;
      Client_storeKind := Client_storeKind client;
      Client_onboardbaseAPIKey := "obb_key";
      Client_onboardbasePasscode := "p1";
      Client_onboardbase := Client_onboardbase client;
      Client_project := Client_project client;
      Client_environment := Client_environment client |}, None).

(** [setAuth] over a cluster that lacks the secret. *)
Definition setAuth_missing (_ : context_Context) (client : provider_Client)
    : provider_Client * option error :=
  (client, Some "cannot get Kubernetes secret").

(** [utils.ValidateSecretSelector]: a cluster-wide store may not leave
    the namespace of a selector out. *)
Definition ValidateSecretSelector (store : GenericStore)
    (ref : SecretKeySelector) : option error :=
  if String.eqb (GetObjectKind_Kind store) "ClusterSecretStore" then
    match Selector_Namespace ref with
    | None => Some "cluster scope requires namespace"
    | Some _ => None
    end
  else None.

Definition selector (name : string) : SecretKeySelector :=
  {| Selector_Name := name; Selector_Namespace := None;
     Selector_Key := "value" |}.

(** A store for project [proj] and environment [dev] whose credentials
    lie in the secrets named [apiKeyName] and [passcodeName]. *)
Definition storeOf (apiKeyName passcodeName : string) : GenericStore :=
  {| GetSpec :=
       Some {| Provider :=
                 Some {| Onboardbase :=
                           Some {| Provider_Auth :=
                                     Some {| Auth_OnboardbaseAPIKey :=
                                               selector apiKeyName;
                                             Auth_OnboardbasePasscode :=
                                               selector passcodeName |};
                                   Provider_Project := "proj";
                                   Provider_Environment := "dev" |} |} |};
     GetObjectKind_Kind := "SecretStore" |}.

(** A store configured for another provider. *)
Definition otherStore : GenericStore :=
  {| GetSpec := Some {| Provider := Some {| Onboardbase := None |} |};
     GetObjectKind_Kind := "SecretStore" |}.

(** [url.Parse] as [Parse], refusing in addition a string that holds
    a control byte. *)
Definition is_ctl (a : ascii) : bool :=
  (nat_of_ascii a <? 32)%nat || (nat_of_ascii a =? 127)%nat.

Definition ParseStrict (s : string) : result URL :=
  if existsb is_ctl (list_ascii_of_string s)
  then Fail "net/url: invalid control character in URL"
  else Parse s.

(** A response whose body breaks off while it is read. *)
Definition truncated (status : Z) (contentType : string) : Response :=
  {| StatusCode := status;
     Response_Header := {[ "Content-Type" := [contentType] ]};
     Response_Body := Fail "unexpected EOF" |}.

End fixture.

(** ** The client's methods *)

Section Client.

(** [aesdecrypt.Run(ciphertext, passphrase)]. *)
Variable aesdecrypt_Run : string → string → result string.
(** [json.Unmarshal] into a zero value of each of the three target types. *)
Variable json_Unmarshal_RawSecret : string → result RawSecret.
Variable json_Unmarshal_secretResponseBody : string → result secretResponseBody.
Variable json_Unmarshal_apiErrorResponse : string → result apiErrorResponse.
(** [url.Parse], [u.String()], [u.Query()] and [v.Encode()]. *)
Variable url_Parse : string → result URL.
Variable URL_String : URL → string.
Variable URL_Query : URL → Values.
Variable Values_Encode : Values → string.
(** [textproto.CanonicalMIMEHeaderKey], under which [http.Header] files
    every key. *)
Variable CanonicalMIMEHeaderKey : string → string.
(** [http.NewRequest(method, url, body)] and [client.Do(req)]. *)
Variable http_NewRequest : string → string → option string → result Request.
Variable http_Client_Do : http_Client → Request → result Response.

(** [h.Get(key)] and [h.Set(key, value)] of [http.Header]. *)
Definition Header_Get (h : Header) (key : string) : string :=
  match h !! CanonicalMIMEHeaderKey key with
  | Some (v :: _) => v
  | _ => ""
  end.

Definition Header_Set (h : Header) (key value : string) : Header :=
  <[CanonicalMIMEHeaderKey key := [value]]> h.

(** [func (c *OnboardbaseClient) SetBaseURL(urlStr string) error]: the
    store and the client after the call, and the error. *)
Definition SetBaseURL (h : heap) (c : OnboardbaseClient) (urlStr : string)
    : heap * OnboardbaseClient * option error :=
  match url_Parse (strings.TrimSuffix urlStr "/") with
  | Fail err => (h, c, Some err)
  | Ok baseURL =>
      let baseURL :=
        if bool_decide (Scheme baseURL = "")
        then URL_set_Scheme baseURL "https" else baseURL in
      let '(p, h) := alloc h baseURL in
      (h, OnboardbaseClient_set_baseURL c (Some p), None)
  end.

(** [func NewOnboardbaseClient(onboardbaseAPIKey, onboardbasePasscode string)],
    returning [*OnboardbaseClient] and [error]. *)
Definition NewOnboardbaseClient (h : heap)
    (onboardbaseAPIKey onboardbasePasscode : string)
    : heap * (option OnboardbaseClient * option APIError) :=
  let httpTransport_MinVersion := tls_VersionTLS12 in
  let client :=
    {| baseURL := None;
       OnboardbaseAPIKey := onboardbaseAPIKey;
       OnboardbasePassCode := onboardbasePasscode;
       VerifyTLS := true;
       UserAgent := "onboardbase-external-secrets";
       httpClient :=
         {| Timeout := 10 * time_Second;
            Transport_DisableKeepAlives := true;
            Transport_TLSClientConfig_MinVersion := httpTransport_MinVersion |}
    |} in
  match SetBaseURL h client "https://public.onboardbase.com/api/v1/" with
  | (h, _, Some err) =>
      (h, (None, Some {| APIError_Err := Some err;
                         APIError_Message := "setting base URL failed";
                         APIError_Data := "" |}))
  | (h, client, None) => (h, (Some client, None))
  end.

(** Lines 265 to 301 of [performRequest]: the request handed to
    [c.httpClient.Do], or the error returned before the exchange. The outer
    [None] is the panic of [BaseURL]. *)
Definition buildRequest (h : heap) (c : OnboardbaseClient)
    (path method : string) (headers : headers) (params : queryParams)
    (body : httpRequestBody) : option (Request + APIError) :=
  '(u, h) ← BaseURL h c;
  base ← h !! u;
  let urlStr := URL_String base +:+ path in
  Some
    match url_Parse urlStr with
    | Fail err =>
        inr {| APIError_Err := Some err;
               APIError_Message := "invalid API URL: " +:+ urlStr;
               APIError_Data := "" |}
    | Ok reqURL =>
        let bodyReader :=
          match body with
          | Some b => Some b
          | None => None
          end in
        match http_NewRequest method (URL_String reqURL) bodyReader with
        | Fail err =>
            inr {| APIError_Err := Some err;
                   APIError_Message := "unable to form HTTP request";
                   APIError_Data := "" |}
        | Ok req =>
            let hd := Request_Header req in
            let hd :=
              if bool_decide (method = "POST")
                 && bool_decide (Header_Get hd "content-type" = "")
              then Header_Set hd "content-type" "application/json" else hd in
            let hd :=
              if bool_decide (Header_Get hd "accept" = "")
              then Header_Set hd "accept" "application/json" else hd in
            let hd := Header_Set hd "user-agent" (UserAgent c) in
            let hd := Header_Set hd "api_key" (OnboardbaseAPIKey c) in
            let hd :=
              foldl (λ hd kv, Header_Set hd kv.1 kv.2) hd headers in
            let query := URL_Query (Request_URL req) in
            let query :=
              map_fold (λ key value query, Values_Add query key value)
                       query params in
            inl {| Request_Method := Request_Method req;
                   Request_URL :=
                     URL_set_RawQuery (Request_URL req) (Values_Encode query);
                   Request_Header := hd;
                   Request_Body := Request_Body req |}
        end
    end.

(** [func (c *OnboardbaseClient) performRequest(path, method string,
    headers headers, params queryParams, body httpRequestBody)],
    returning [*apiResponse] and [error]. *)
Definition performRequest (h : heap) (c : OnboardbaseClient)
    (path method : string) (headers : headers) (params : queryParams)
    (body : httpRequestBody) : option (option apiResponse * option APIError) :=
  built ← buildRequest h c path method headers params body;
  Some
    match built with
    | inr apiErr => (None, Some apiErr)
    | inl req =>
        match http_Client_Do (httpClient c) req with
        | Fail err =>
            (None, Some {| APIError_Err := Some err;
                           APIError_Message := "unable to load response";
                           APIError_Data := "" |})
        | Ok r =>
            match Response_Body r with
            | Fail err =>
                (Some {| HTTPResponse := r; Body := None |},
                 Some {| APIError_Err := Some err;
                         APIError_Message :=
                           "unable to read entire response body";
                         APIError_Data := "" |})
            | Ok bodyResponse =>
                let err : option error := None in
                let response :=
                  {| HTTPResponse := r; Body := Some bodyResponse |} in
                let success := isSuccess (StatusCode r) in
                if negb success then
                  let contentType :=
                    Header_Get (Response_Header r) "content-type" in
                  if strings.HasPrefix contentType "application/json" then
                    match json_Unmarshal_apiErrorResponse bodyResponse with
                    | Fail err =>
                        (Some response,
                         Some {| APIError_Err := Some err;
                                 APIError_Message :=
                                   "unable to unmarshal error JSON payload";
                                 APIError_Data := "" |})
                    | Ok errResponse =>
                        (Some response,
                         Some {| APIError_Err := None;
                                 APIError_Message :=
                                   strings.Join (Messages errResponse) LF;
                                 APIError_Data := "" |})
                    end
                  else
                    (None,
                     Some {| APIError_Err :=
                               Some (fmt.d (StatusCode r)
                                     +:+ " status code; "
                                     +:+ fmt.d (Z.of_nat
                                                  (String.length bodyResponse))
                                     +:+ " bytes");
                             APIError_Message := "unable to load response";
                             APIError_Data := "" |})
                else
                  match err with
                  | Some err =>
                      if success then
                        (None,
                         Some {| APIError_Err := Some err;
                                 APIError_Message :=
                                   "unable to load data from successful response";
                                 APIError_Data := "" |})
                      else (Some response, None)
                  | None => (Some response, None)
                  end
            end
        end
    end.

(** [func (c *OnboardbaseClient) Authenticate() error]. *)
Definition Authenticate (h : heap) (c : OnboardbaseClient)
    : option (option APIError) :=
  r ← performRequest h c "/team/members" "GET" [] ∅ (Some "");
  Some r.2.

(** The [for ... range data.Secrets] loop of [getSecretsFromPayload],
    from the map [kv] built so far. *)
Fixpoint getSecretsFromPayload_range (c : OnboardbaseClient)
    (secrets : list string) (kv : gmap string string)
    : Secrets * option APIError :=
  match secrets with
  | [] => (Some kv, None)
  | secret :: secrets =>
      let passphrase := OnboardbasePassCode c in
      match aesdecrypt_Run secret passphrase with
      | Fail err =>
          (None, Some {| APIError_Err := Some err;
                         APIError_Message := "unable to decrypt secret payload";
                         APIError_Data := secret |})
      | Ok decrypted =>
          match json_Unmarshal_RawSecret decrypted with
          | Fail err =>
              (None, Some {| APIError_Err := Some err;
                             APIError_Message :=
                               "unable to unmarshal secret payload";
                             APIError_Data := decrypted |})
          | Ok decryptedJSON =>
              getSecretsFromPayload_range c secrets
                (<[RawSecret_Key decryptedJSON
                   := RawSecret_Value decryptedJSON]> kv)
          end
      end
  end.

(** [func (c *OnboardbaseClient) getSecretsFromPayload(data
    secretResponseBodyData) (map[string]string, error)]. *)
Definition getSecretsFromPayload (c : OnboardbaseClient)
    (data : secretResponseBodyData) : Secrets * option APIError :=
  getSecretsFromPayload_range c (Data_Secrets data) ∅.

(** [fmt.Sprintf("secret %s for project '%s' and environment '%s' not
    found", name, project, environment)]. *)
Definition notFoundMessage (name project environment : string) : string :=
  "secret " +:+ name +:+ " for project '" +:+ project
  +:+ "' and environment '" +:+ environment +:+ "' not found".

(** [func (c *OnboardbaseClient) GetSecret(request SecretRequest)],
    returning [*SecretResponse] and [error]. The outer [None] is a run-time panic. *)
Definition GetSecret (h : heap) (c : OnboardbaseClient)
    (request : SecretRequest)
    : option (option SecretResponse * option APIError) :=
  let params := SecretRequest_buildQueryParams request in
  r ← performRequest h c "/secrets" "GET" [] params (Some "");
  match r with
  | (_, Some err) => Some (None, Some err)
  | (response, None) =>
      response ← response;
      Some
        match json_Unmarshal_secretResponseBody (default "" (Body response)) with
        | Fail err =>
            (None, Some {| APIError_Err := Some err;
                           APIError_Message :=
                             "unable to unmarshal secret payload";
                           APIError_Data := default "" (Body response) |})
        | Ok data =>
            let '(secrets, _) := getSecretsFromPayload c (Body_Data data) in
            let secret := index secrets (SecretRequest_Name request) in
            if bool_decide (secret = "") then
              (None, Some {| APIError_Err := None;
                             APIError_Message :=
                               notFoundMessage
                                 (SecretRequest_Name request)
                                 (SecretRequest_Project request)
                                 (SecretRequest_Environment request);
                             APIError_Data := "" |})
            else
              (Some {| SecretResponse_Name := SecretRequest_Name request;
                       SecretResponse_Value :=
                         index secrets (SecretRequest_Name request) |},
               None)
        end
  end.

(** [func (c *OnboardbaseClient) GetSecrets(request SecretsRequest)],
    returning [*SecretsResponse] and [error]. The outer [None] is a
    run-time panic. *)
Definition GetSecrets (h : heap) (c : OnboardbaseClient)
    (request : SecretsRequest)
    : option (option SecretsResponse * option APIError) :=
  let headers : headers := [] in
  let params := SecretsRequest_buildQueryParams request in
  r ← performRequest h c "/secrets" "GET" headers params (Some "");
  match r with
  | (_, Some apiErr) => Some (None, Some apiErr)
  | (response, None) =>
      response ← response;
      Some
        match json_Unmarshal_secretResponseBody (default "" (Body response)) with
        | Fail err =>
            (None, Some {| APIError_Err := Some err;
                           APIError_Message :=
                             "unable to unmarshal secret payload";
                           APIError_Data := default "" (Body response) |})
        | Ok data =>
            let '(secrets, _) := getSecretsFromPayload c (Body_Data data) in
            (Some {| SecretsResponse_Secrets := secrets;
                     SecretsResponse_Body := Body response |},
             None)
        end
  end.


(** ** The provider *)

(** [func (c *Client) setAuth(ctx context.Context) error], which is not
    part of these files: the client after the call, and the error. *)
Variable setAuth : context_Context → provider_Client → provider_Client * option error.
(** [utils.ValidateSecretSelector(store, ref)]. *)
Variable utils_ValidateSecretSelector : GenericStore → SecretKeySelector → option error.

(** [func (p *Provider) Capabilities() esv1beta1.SecretStoreCapabilities]. *)
Definition Capabilities : SecretStoreCapabilities := SecretStoreReadOnly.

(** [func (p *Provider) NewClient(ctx, store, kube, namespace)], returning
    [esv1beta1.SecretsClient] and [error]. [None] is a run-time panic. *)
Definition NewClient (h : heap) (ctx : context_Context) (store : GenericStore)
    (kube : kclient_Client) (namespace : string)
    : option (heap * (option provider_Client * option error)) :=
  let storeSpec := GetSpec store in
  let onboardbaseStoreSpec :=
    match storeSpec with
    | None => None
    | Some storeSpec =>
        match Provider storeSpec with
        | None => None
        | Some provider => Onboardbase provider
        end
    end in
  match onboardbaseStoreSpec with
  | None => Some (h, (None, Some errOnboardbaseStore))
  | Some onboardbaseStoreSpec =>
      let client :=
        {| Client_kube := kube;
           Client_store := Some onboardbaseStoreSpec;
           Client_namespace := namespace;
           Client_storeKind := GetObjectKind_Kind store;
           Client_onboardbaseAPIKey := "";
           Client_onboardbasePasscode := "";
           Client_onboardbase := None;
           Client_project := "";
           Client_environment := "" |} in
      match setAuth ctx client with
      | (_, Some err) => Some (h, (None, Some err))
      | (client, None) =>
          match NewOnboardbaseClient h (Client_onboardbaseAPIKey client)
                                     (Client_onboardbasePasscode client) with
          | (h, (_, Some err)) =>
              Some (h, (None, Some (errNewClient (APIError_Error err))))
          | (h, (onboardbase, None)) =>
              store ← Client_store client;
              Some (h, (Some (provider_Client_set_onboardbase client
                                onboardbase (Provider_Project store)
                                (Provider_Environment store)),
                        None))
          end
      end
  end.

(** [func (p *Provider) ValidateStore(store esv1beta1.GenericStore) error].
    The outer [None] is a run-time panic. *)
Definition ValidateStore (store : GenericStore) : option (option error) :=
  storeSpec ← GetSpec store;
  provider ← Provider storeSpec;
  onboardbaseStoreSpec ← Onboardbase provider;
  auth ← Provider_Auth onboardbaseStoreSpec;
  let onboardbaseAPIKeySecretRef := Auth_OnboardbaseAPIKey auth in
  Some
    match utils_ValidateSecretSelector store onboardbaseAPIKeySecretRef with
    | Some err => Some (errInvalidStore err)
    | None =>
        if bool_decide (Selector_Name onboardbaseAPIKeySecretRef = "") then
          Some (errInvalidStore "onboardbaseAPIKey.name cannot be empty")
        else
          let onboardbasePasscodeKeySecretRef :=
            Auth_OnboardbasePasscode auth in
          match utils_ValidateSecretSelector
                  store onboardbasePasscodeKeySecretRef with
          | Some err => Some (errInvalidStore err)
          | None =>
              if bool_decide
                   (Selector_Name onboardbasePasscodeKeySecretRef = "")
              then
                Some (errInvalidStore
                        "onboardbasePasscode.name cannot be empty")
              else None
          end
    end.

(** ** Notions the properties are stated with *)

(** The record an envelope holds: its plaintext under the client's
    passcode, decoded. [None] when either step fails. *)
Definition decryptedRecord (c : OnboardbaseClient) (secret : string)
    : option RawSecret :=
  match aesdecrypt_Run secret (OnboardbasePassCode c) with
  | Ok decrypted =>
      match json_Unmarshal_RawSecret decrypted with
      | Ok record => Some record
      | Fail _ => None
      end
  | Fail _ => None
  end.

(** The value of the last record of [records] whose key is [k]. *)
Fixpoint lastValue (k : string) (records : list RawSecret) : option string :=
  match records with
  | [] => None
  | r :: records =>
      match lastValue k records with
      | Some v => Some v
      | None =>
          if bool_decide (RawSecret_Key r = k)
          then Some (RawSecret_Value r) else None
      end
  end.

(** The map the loop of [getSecretsFromPayload] reaches from [kv] when
    the envelopes hold [records]. *)
Definition recorded (kv : gmap string string) (records : list RawSecret)
    : gmap string string :=
  foldl (λ kv r, <[RawSecret_Key r := RawSecret_Value r]> kv) kv records.

(** The value of the last caller header filed under the same canonical
    key as [key]. *)
Fixpoint callerValue (key : string) (hs : headers) : option string :=
  match hs with
  | [] => None
  | kv :: hs =>
      match callerValue key hs with
      | Some v => Some v
      | None =>
          if bool_decide (CanonicalMIMEHeaderKey kv.1
                          = CanonicalMIMEHeaderKey key)
          then Some kv.2 else None
      end
  end.

(** Query parameters that carry [project] and [environment] exactly when
    they are not empty, and nothing else. *)
Definition omitsEmpty (project environment : string) (params : queryParams)
    : Prop :=
  (project = "" → params !! "project" = None)
  ∧ (project ≠ "" → params !! "project" = Some project)
  ∧ (environment = "" → params !! "environment" = None)
  ∧ (environment ≠ "" → params !! "environment" = Some environment)
  ∧ (∀ k, params !! k ≠ Some "")
  ∧ (∀ k, is_Some (params !! k) → k = "project" ∨ k = "environment").

(** The error of a refused exchange whose body is not JSON. *)
Definition statusRejected (statusCode : Z) (bytes : nat) : APIError :=
  {| APIError_Err :=
       Some (fmt.d statusCode +:+ " status code; "
             +:+ fmt.d (Z.of_nat bytes) +:+ " bytes");
     APIError_Message := "unable to load response";
     APIError_Data := "" |}.

(** The Onboardbase provider of a store, and its credentials
    references, when the store has them. *)
Definition providerOf (store : GenericStore) : option OnboardbaseProvider :=
  storeSpec ← GetSpec store;
  provider ← Provider storeSpec;
  Onboardbase provider.

Definition authOf (store : GenericStore) : option OnboardbaseAuthSecretRef :=
  provider ← providerOf store;
  Provider_Auth provider.

(** ** Properties *)

(** *** Query parameters *)

Lemma omitsEmpty_build (project environment : string) :
  omitsEmpty project environment
    (let params : queryParams := ∅ in
     let params :=
       if bool_decide (project ≠ "")
       then <["project" := project]> params else params in
     if bool_decide (environment ≠ "")
     then <["environment" := environment]> params else params).
Proof.
  unfold omitsEmpty; cbn zeta.
  repeat case_bool_decide; split_and!; try (intros; simplify_map_eq; congruence).
  all: intros k;
    destruct (decide (k = "project")) as [->|?];
    [|destruct (decide (k = "environment")) as [->|?]];
    try (intros; simplify_map_eq; congruence); auto.
  all: intros [x Hx]; simplify_map_eq.
Qed.

(** C6. For every [SecretRequest] and every [SecretsRequest],
    [buildQueryParams] leaves out [project] when [Project] is empty and
    [environment] when [Environment] is empty, never holds an empty value,
    and files the values that are not empty under the keys ["project"] and
    ["environment"]. *)
Theorem C6_buildQueryParams_omits_empty :
  (∀ r : SecretRequest,
      omitsEmpty (SecretRequest_Project r) (SecretRequest_Environment r)
                 (SecretRequest_buildQueryParams r))
  ∧ (∀ r : SecretsRequest,
      omitsEmpty (SecretsRequest_Project r) (SecretsRequest_Environment r)
                 (SecretsRequest_buildQueryParams r)).
Proof. split; intros r; apply omitsEmpty_build. Qed.


(** *** Classification of the response *)

Lemma isSuccess_range (statusCode : Z) :
  isSuccess statusCode = true ↔ 200 ≤ statusCode ≤ 399.
Proof.
  unfold isSuccess.
  rewrite orb_true_iff, !andb_true_iff, !Z.leb_le. lia.
Qed.

Lemma isSuccess_outside (statusCode : Z) :
  isSuccess statusCode = false ↔ ¬ (200 ≤ statusCode ≤ 399).
Proof.
  rewrite <- isSuccess_range. destruct (isSuccess statusCode); naive_solver.
Qed.

(** What [performRequest] returns once the exchange took place and the
    body was read. *)
Lemma performRequest_exchange h c path method hs params body req r bodyResponse :
  buildRequest h c path method hs params body = Some (inl req) →
  http_Client_Do (httpClient c) req = Ok r →
  Response_Body r = Ok bodyResponse →
  performRequest h c path method hs params body =
  Some
    (if isSuccess (StatusCode r) then
       (Some {| HTTPResponse := r; Body := Some bodyResponse |}, None)
     else if strings.HasPrefix
               (Header_Get (Response_Header r) "content-type")
               "application/json" then
       match json_Unmarshal_apiErrorResponse bodyResponse with
       | Fail err =>
           (Some {| HTTPResponse := r; Body := Some bodyResponse |},
            Some {| APIError_Err := Some err;
                    APIError_Message := "unable to unmarshal error JSON payload";
                    APIError_Data := "" |})
       | Ok errResponse =>
           (Some {| HTTPResponse := r; Body := Some bodyResponse |},
            Some {| APIError_Err := None;
                    APIError_Message := strings.Join (Messages errResponse) LF;
                    APIError_Data := "" |})
       end
     else (None, Some (statusRejected (StatusCode r)
                                      (String.length bodyResponse)))).
Proof.
  intros Hreq Hdo Hbody. unfold performRequest.
  rewrite Hreq; cbn. rewrite Hdo, Hbody.
  destruct (isSuccess (StatusCode r)); reflexivity.
Qed.

(** C4. Once the exchange took place and the body was read,
    [performRequest] takes the success path exactly when the status code
    lies in [200, 399], bounds included: it then returns the response and
    no error, redirects included, and for every other status code it
    returns an error. *)
Theorem C4_success_iff_status_200_to_399
    h c path method hs params body req r bodyResponse :
  buildRequest h c path method hs params body = Some (inl req) →
  http_Client_Do (httpClient c) req = Ok r →
  Response_Body r = Ok bodyResponse →
  (isSuccess (StatusCode r) = true ↔ 200 ≤ StatusCode r ≤ 399)
  ∧ (200 ≤ StatusCode r ≤ 399 →
     performRequest h c path method hs params body
     = Some (Some {| HTTPResponse := r; Body := Some bodyResponse |}, None))
  ∧ (¬ (200 ≤ StatusCode r ≤ 399) →
     ∃ response apiErr,
       performRequest h c path method hs params body
       = Some (response, Some apiErr)).
Proof.
  intros Hreq Hdo Hbody.
  rewrite (performRequest_exchange _ _ _ _ _ _ _ _ _ _ Hreq Hdo Hbody).
  split_and!.
  - apply isSuccess_range.
  - intros Hin. apply isSuccess_range in Hin. by rewrite Hin.
  - intros Hout. apply isSuccess_outside in Hout. rewrite Hout.
    destruct (strings.HasPrefix _ _); [|by eauto].
    destruct (json_Unmarshal_apiErrorResponse bodyResponse); eauto.
Qed.

(** C5. When the status code is not a success and the content type of
    the response does not start with [application/json], [performRequest]
    returns no response and an error made of the status code and the
    number of bytes of the body only: its underlying error is
    ["<status> status code; <n> bytes"], its data snippet is empty, and so
    its text holds nothing of the body. *)
Theorem C5_non_JSON_rejection_hides_body
    h c path method hs params body req r bodyResponse :
  buildRequest h c path method hs params body = Some (inl req) →
  http_Client_Do (httpClient c) req = Ok r →
  Response_Body r = Ok bodyResponse →
  isSuccess (StatusCode r) = false →
  strings.HasPrefix (Header_Get (Response_Header r) "content-type")
                    "application/json" = false →
  performRequest h c path method hs params body
  = Some (None, Some (statusRejected (StatusCode r)
                                     (String.length bodyResponse)))
  ∧ APIError_Data
      (statusRejected (StatusCode r) (String.length bodyResponse)) = ""
  ∧ APIError_Error
      (statusRejected (StatusCode r) (String.length bodyResponse))
    = "Onboardbase API Client Error: unable to load response" +:+ LF
      +:+ fmt.d (StatusCode r) +:+ " status code; "
      +:+ fmt.d (Z.of_nat (String.length bodyResponse)) +:+ " bytes".
Proof.
  intros Hreq Hdo Hbody Hfail Hct.
  rewrite (performRequest_exchange _ _ _ _ _ _ _ _ _ _ Hreq Hdo Hbody).
  rewrite Hfail, Hct. split_and!; reflexivity.
Qed.


(** *** The headers of the outbound request *)

Lemma Header_Set_lookup (hd : Header) (key value key' : string) :
  Header_Set hd key value !! CanonicalMIMEHeaderKey key'
  = if bool_decide (CanonicalMIMEHeaderKey key = CanonicalMIMEHeaderKey key')
    then Some [value] else hd !! CanonicalMIMEHeaderKey key'.
Proof.
  unfold Header_Set. case_bool_decide as Hk.
  - rewrite Hk. apply lookup_insert_eq.
  - by apply lookup_insert_ne.
Qed.

(** The caller's headers are written one after the other: the last one
    filed under a key stays. *)
Lemma callerValue_foldl (hs : headers) (hd : Header) (key : string) :
  foldl (λ hd kv, Header_Set hd kv.1 kv.2) hd hs !! CanonicalMIMEHeaderKey key
  = match callerValue key hs with
    | Some v => Some [v]
    | None => hd !! CanonicalMIMEHeaderKey key
    end.
Proof.
  revert hd. induction hs as [|kv hs IH]; intros hd; [done|].
  cbn [foldl callerValue]. rewrite IH.
  destruct (callerValue key hs); [done|].
  rewrite Header_Set_lookup. by case_bool_decide.
Qed.

(** The header of the request [buildRequest] yields: the caller's headers
    on top of the four defaults, on top of the header [hd] of the new
    request. *)
Lemma buildRequest_Header h c path method hs params body req :
  buildRequest h c path method hs params body = Some (inl req) →
  ∃ hd : Header,
    Request_Header req
    = foldl (λ hd kv, Header_Set hd kv.1 kv.2)
            (Header_Set (Header_Set hd "user-agent" (UserAgent c))
                        "api_key" (OnboardbaseAPIKey c))
            hs.
Proof.
  unfold buildRequest. intros Hreq.
  destruct (BaseURL h c) as [[u h']|]; [cbn in Hreq|done].
  destruct (h' !! u); [cbn in Hreq|done].
  destruct (url_Parse _); [|done].
  destruct (http_NewRequest _ _ _); [|done].
  injection Hreq as <-. cbn [Request_Header]. eauto.
Qed.

(** C8, as the code has it. [performRequest] writes the caller's headers
    after all its defaults, so a caller header replaces any default filed
    under the same canonical key, [user-agent] and [api_key] as well as
    [accept] and [content-type]; only when the caller gives no header of
    that key does the request carry the configured user agent and the raw
    API key. *)
Theorem C8_caller_headers_replace_every_default
    h c path method hs params body req :
  CanonicalMIMEHeaderKey "user-agent" ≠ CanonicalMIMEHeaderKey "api_key" →
  buildRequest h c path method hs params body = Some (inl req) →
  (∀ key value,
      callerValue key hs = Some value →
      Header_Get (Request_Header req) key = value)
  ∧ (callerValue "user-agent" hs = None →
     Header_Get (Request_Header req) "user-agent" = UserAgent c)
  ∧ (callerValue "api_key" hs = None →
     Header_Get (Request_Header req) "api_key" = OnboardbaseAPIKey c).
Proof.
  intros Hne Hreq.
  destruct (buildRequest_Header _ _ _ _ _ _ _ _ Hreq) as [hd ->].
  unfold Header_Get. split_and!.
  - intros key value Hv. by rewrite callerValue_foldl, Hv.
  - intros Hv. rewrite callerValue_foldl, Hv, !Header_Set_lookup.
    rewrite bool_decide_eq_false_2 by congruence.
    by rewrite bool_decide_eq_true_2.
  - intros Hv. rewrite callerValue_foldl, Hv, Header_Set_lookup.
    by rewrite bool_decide_eq_true_2.
Qed.

(** *** The base URL *)

Lemma BaseURL_Some h c p h' :
  BaseURL h c = Some (p, h') →
  ∃ p0 u, baseURL c = Some p0 ∧ h !! p0 = Some u
          ∧ p ≠ p0 ∧ h !! p = None ∧ h' = <[p := u]> h.
Proof.
  unfold BaseURL, alloc. intros HB.
  destruct (baseURL c) as [p0|]; [cbn in HB|done].
  destruct (h !! p0) as [u|] eqn:Hu; [cbn in HB|done].
  injection HB as <- <-. exists p0, u.
  assert (h !! fresh (dom h) = None) as Hfresh
    by apply not_elem_of_dom, is_fresh.
  split_and!; try done. intros Heq. congruence.
Qed.

(** The request depends on the store through the value of the base URL
    only. *)
Lemma buildRequest_store h1 h2 c path method hs params body :
  (∀ p0, baseURL c = Some p0 → h1 !! p0 = h2 !! p0) →
  buildRequest h1 c path method hs params body
  = buildRequest h2 c path method hs params body.
Proof.
  intros Hsame. unfold buildRequest, BaseURL, alloc.
  destruct (baseURL c) as [p0|]; [cbn|done].
  rewrite (Hsame p0 eq_refl).
  destruct (h2 !! p0) as [u|]; [cbn|done].
  by rewrite !lookup_insert_eq.
Qed.

(** C9. [BaseURL] returns the address of a copy: it differs from the
    address the client keeps, it holds the same URL, and whatever is
    written through it, the client's base URL, and with it the outcome of
    [performRequest], stay as they were. *)
Theorem C9_BaseURL_returns_a_defensive_copy h c p h' :
  BaseURL h c = Some (p, h') →
  baseURL c ≠ Some p
  ∧ h' !! p = (baseURL c ≫= (h !!.))
  ∧ ∀ u' : URL,
      (baseURL c ≫= (<[p := u']> h' !!.)) = (baseURL c ≫= (h !!.))
      ∧ ∀ path method hs params body,
          performRequest (<[p := u']> h') c path method hs params body
          = performRequest h c path method hs params body.
Proof.
  intros HB.
  destruct (BaseURL_Some _ _ _ _ HB) as (p0 & u & Hc & Hu & Hne & Hp & ->).
  assert (∀ u' q, baseURL c = Some q →
                  <[p := u']> (<[p := u]> h) !! q = h !! q) as Hkeep.
  { intros u' q Hq. assert (q = p0) as -> by congruence.
    by rewrite !lookup_insert_ne. }
  split_and!.
  - congruence.
  - rewrite Hc; cbn. by rewrite lookup_insert_eq.
  - intros u'. split.
    + rewrite Hc; cbn. by apply Hkeep.
    + intros. unfold performRequest.
      by rewrite (buildRequest_store _ h) by apply Hkeep.
Qed.

(** *** Construction *)

Lemma TrimSuffix_base :
  strings.TrimSuffix "https://public.onboardbase.com/api/v1/" "/"
  = "https://public.onboardbase.com/api/v1".
Proof. reflexivity. Qed.

(** C3, as the code has it. [NewOnboardbaseClient] checks neither
    credential: whenever the fixed base URL parses, it returns a client
    that holds the API key and the passcode as given, empty or not, and no
    error. It takes no transport, so it makes no network call. *)
Theorem C3_constructor_accepts_any_credentials h key passcode u :
  url_Parse "https://public.onboardbase.com/api/v1" = Ok u →
  ∃ h' client,
    NewOnboardbaseClient h key passcode = (h', (Some client, None))
    ∧ OnboardbaseAPIKey client = key
    ∧ OnboardbasePassCode client = passcode
    ∧ UserAgent client = "onboardbase-external-secrets"
    ∧ is_Some (baseURL client ≫= (h' !!.)).
Proof.
  intros Hparse. unfold NewOnboardbaseClient, SetBaseURL, alloc.
  rewrite TrimSuffix_base, Hparse.
  eexists _, _. split_and!; try reflexivity.
  cbn. rewrite lookup_insert_eq. eauto.
Qed.


(** *** The decryption loop *)

Lemma decryptedRecord_Some c secret record :
  decryptedRecord c secret = Some record →
  ∃ decrypted,
    aesdecrypt_Run secret (OnboardbasePassCode c) = Ok decrypted
    ∧ json_Unmarshal_RawSecret decrypted = Ok record.
Proof.
  unfold decryptedRecord. intros Hrec.
  destruct (aesdecrypt_Run _ _) as [decrypted|]; [|done].
  destruct (json_Unmarshal_RawSecret decrypted) eqn:Hjson; [|done].
  exists decrypted. split; congruence.
Qed.

(** When every envelope holds a record, the loop inserts them in order. *)
Lemma getSecretsFromPayload_range_recorded c secrets records kv :
  mapM (decryptedRecord c) secrets = Some records →
  getSecretsFromPayload_range c secrets kv = (Some (recorded kv records), None).
Proof.
  rewrite mapM_Some. intros Hall. revert kv.
  induction Hall as [|secret record secrets records Hrec _ IH]; intros kv.
  - reflexivity.
  - destruct (decryptedRecord_Some _ _ _ Hrec) as (decrypted & Hrun & Hjson).
    cbn [getSecretsFromPayload_range]. rewrite Hrun, Hjson. apply IH.
Qed.

(** The first envelope whose plaintext does not decode stops the loop
    with an error that carries this plaintext. *)
Lemma getSecretsFromPayload_range_decode_error
    c before records secret decrypted err after kv :
  mapM (decryptedRecord c) before = Some records →
  aesdecrypt_Run secret (OnboardbasePassCode c) = Ok decrypted →
  json_Unmarshal_RawSecret decrypted = Fail err →
  getSecretsFromPayload_range c (before ++ secret :: after) kv
  = (None, Some {| APIError_Err := Some err;
                   APIError_Message := "unable to unmarshal secret payload";
                   APIError_Data := decrypted |}).
Proof.
  rewrite mapM_Some. intros Hall Hrun Hjson. revert kv.
  induction Hall as [|s r ss rs Hrec _ IH]; intros kv.
  - cbn. by rewrite Hrun, Hjson.
  - destruct (decryptedRecord_Some _ _ _ Hrec) as (d & Hd & Hj).
    cbn. rewrite Hd, Hj. apply IH.
Qed.

Lemma recorded_lookup (records : list RawSecret) (kv : gmap string string) k :
  recorded kv records !! k
  = match lastValue k records with
    | Some v => Some v
    | None => kv !! k
    end.
Proof.
  revert kv. induction records as [|r records IH]; intros kv; [done|].
  unfold recorded in *. cbn [foldl lastValue]. rewrite IH.
  destruct (lastValue k records); [done|].
  case_bool_decide as Hk.
  - rewrite <- Hk. apply lookup_insert_eq.
  - by apply lookup_insert_ne.
Qed.

Lemma recorded_size_le (records : list RawSecret) (kv : gmap string string) :
  (size (recorded kv records) ≤ size kv + length records)%nat.
Proof.
  revert kv. induction records as [|r records IH]; intros kv.
  - cbn. lia.
  - unfold recorded in *. cbn [foldl length].
    etrans; [apply IH|]. rewrite map_size_insert.
    destruct (kv !! RawSecret_Key r); unfold id; lia.
Qed.

Lemma lastValue_None (k : string) (records : list RawSecret) :
  k ∉ RawSecret_Key <$> records → lastValue k records = None.
Proof.
  induction records as [|r records IH]; [done|].
  rewrite fmap_cons, not_elem_of_cons. intros [Hne Hnotin].
  cbn. rewrite IH by done. by rewrite bool_decide_eq_false_2.
Qed.

Lemma lastValue_NoDup (r : RawSecret) (records : list RawSecret) :
  NoDup (RawSecret_Key <$> records) →
  r ∈ records →
  lastValue (RawSecret_Key r) records = Some (RawSecret_Value r).
Proof.
  induction records as [|r' records IH]; [by intros _ ?%elem_of_nil|].
  rewrite fmap_cons, NoDup_cons. intros [Hnotin Hnodup] Hin.
  apply elem_of_cons in Hin as [->|Hin]; cbn.
  - rewrite lastValue_None by done. by rewrite bool_decide_eq_true_2.
  - by rewrite IH.
Qed.

Lemma recorded_size_NoDup (records : list RawSecret) (kv : gmap string string) :
  NoDup (RawSecret_Key <$> records) →
  (∀ r, r ∈ records → kv !! RawSecret_Key r = None) →
  size (recorded kv records) = (size kv + length records)%nat.
Proof.
  revert kv. induction records as [|r records IH]; intros kv.
  - cbn. lia.
  - rewrite fmap_cons, NoDup_cons. intros [Hnotin Hnodup] Hfree.
    unfold recorded in *. cbn [foldl length]. rewrite IH; [|done|].
    + rewrite map_size_insert_None; [lia|]. apply Hfree, elem_of_cons; auto.
    + intros r' Hin. rewrite lookup_insert_ne.
      * apply Hfree, elem_of_cons; auto.
      * intros Heq. apply Hnotin. rewrite Heq.
        by apply list_elem_of_fmap_2.
Qed.

(** C10. When every envelope holds a record, [getSecretsFromPayload]
    returns a map that gives each key the value of the last envelope that
    bears it, and that has at most as many entries as there are
    envelopes. *)
Theorem C10_duplicate_keys_last_write_wins c data records :
  mapM (decryptedRecord c) (Data_Secrets data) = Some records →
  ∃ kv : gmap string string,
    getSecretsFromPayload c data = (Some kv, None)
    ∧ (∀ k, kv !! k = lastValue k records)
    ∧ (size kv ≤ length (Data_Secrets data))%nat.
Proof.
  intros Hall. exists (recorded ∅ records). split_and!.
  - by apply getSecretsFromPayload_range_recorded.
  - intros k. rewrite recorded_lookup, lookup_empty.
    by destruct (lastValue k records).
  - rewrite (length_mapM _ _ _ Hall).
    etrans; [apply recorded_size_le|]. rewrite map_size_empty. lia.
Qed.


(** *** The two read operations *)

(** After a successful exchange and parse, [GetSecrets] succeeds with
    whatever map [getSecretsFromPayload] returns: its error is dropped. *)
Lemma GetSecrets_exchange h c request response data :
  performRequest h c "/secrets" "GET" []
    (SecretsRequest_buildQueryParams request) (Some "")
  = Some (Some response, None) →
  json_Unmarshal_secretResponseBody (default "" (Body response)) = Ok data →
  GetSecrets h c request
  = Some (Some {| SecretsResponse_Secrets :=
                    (getSecretsFromPayload c (Body_Data data)).1;
                  SecretsResponse_Body := Body response |}, None).
Proof.
  intros Hperf Hjson. unfold GetSecrets. rewrite Hperf; cbn. rewrite Hjson.
  by destruct (getSecretsFromPayload c (Body_Data data)).
Qed.

(** After a successful exchange and parse, [GetSecret] looks the name up
    in whatever map [getSecretsFromPayload] returns. *)
Lemma GetSecret_exchange h c request response data :
  performRequest h c "/secrets" "GET" []
    (SecretRequest_buildQueryParams request) (Some "")
  = Some (Some response, None) →
  json_Unmarshal_secretResponseBody (default "" (Body response)) = Ok data →
  GetSecret h c request
  = Some
      (let value := index (getSecretsFromPayload c (Body_Data data)).1
                          (SecretRequest_Name request) in
       if bool_decide (value = "") then
         (None, Some {| APIError_Err := None;
                        APIError_Message :=
                          notFoundMessage (SecretRequest_Name request)
                                          (SecretRequest_Project request)
                                          (SecretRequest_Environment request);
                        APIError_Data := "" |})
       else
         (Some {| SecretResponse_Name := SecretRequest_Name request;
                  SecretResponse_Value := value |}, None)).
Proof.
  intros Hperf Hjson. unfold GetSecret. rewrite Hperf; cbn. rewrite Hjson.
  by destruct (getSecretsFromPayload c (Body_Data data)).
Qed.

(** A success of [GetSecret] carries the requested name and a value that
    is not empty. *)
Lemma GetSecret_success_value h c request secret err :
  GetSecret h c request = Some (Some secret, err) →
  err = None
  ∧ SecretResponse_Name secret = SecretRequest_Name request
  ∧ SecretResponse_Value secret ≠ "".
Proof.
  unfold GetSecret. intros Hget.
  destruct (performRequest _ _ _ _ _ _ _) as [[response [apiErr|]]|];
    cbn in Hget; try done.
  destruct response as [response|]; cbn in Hget; [|done].
  destruct (json_Unmarshal_secretResponseBody _); [|done].
  destruct (getSecretsFromPayload c _) as [secrets dropped].
  case_bool_decide; simplify_eq. by cbn.
Qed.

(** C2. After a successful exchange and parse, when the requested name
    is absent from the decrypted map or its value there is the empty
    string, [GetSecret] returns no secret and an error whose message
    names the secret, the project and the environment. *)
Theorem C2_GetSecret_absent_or_empty_is_not_found
    h c request response data :
  performRequest h c "/secrets" "GET" []
    (SecretRequest_buildQueryParams request) (Some "")
  = Some (Some response, None) →
  json_Unmarshal_secretResponseBody (default "" (Body response)) = Ok data →
  ((getSecretsFromPayload c (Body_Data data)).1
     ≫= (.!! SecretRequest_Name request)) = None
  ∨ ((getSecretsFromPayload c (Body_Data data)).1
       ≫= (.!! SecretRequest_Name request)) = Some "" →
  GetSecret h c request
  = Some (None,
          Some {| APIError_Err := None;
                  APIError_Message :=
                    "secret " +:+ SecretRequest_Name request
                    +:+ " for project '" +:+ SecretRequest_Project request
                    +:+ "' and environment '"
                    +:+ SecretRequest_Environment request +:+ "' not found";
                  APIError_Data := "" |}).
Proof.
  intros Hperf Hjson Hmissing.
  rewrite (GetSecret_exchange _ _ _ _ _ Hperf Hjson). cbn zeta.
  rewrite bool_decide_eq_true_2; [done|].
  unfold index.
  destruct (getSecretsFromPayload c (Body_Data data)).1 as [kv|]; [|done].
  cbn in Hmissing. by destruct Hmissing as [->| ->].
Qed.

(** C7. After a successful exchange and parse, when the N envelopes of
    the payload hold N records with N distinct keys, [GetSecrets] succeeds
    with a map of exactly N entries that gives each key the value of its
    record; with no envelope at all it succeeds with the empty map. *)
Theorem C7_GetSecrets_returns_every_record
    h c request response data records :
  performRequest h c "/secrets" "GET" []
    (SecretsRequest_buildQueryParams request) (Some "")
  = Some (Some response, None) →
  json_Unmarshal_secretResponseBody (default "" (Body response)) = Ok data →
  mapM (decryptedRecord c) (Data_Secrets (Body_Data data)) = Some records →
  NoDup (RawSecret_Key <$> records) →
  ∃ kv : gmap string string,
    GetSecrets h c request
    = Some (Some {| SecretsResponse_Secrets := Some kv;
                    SecretsResponse_Body := Body response |}, None)
    ∧ size kv = length (Data_Secrets (Body_Data data))
    ∧ (∀ r, r ∈ records → kv !! RawSecret_Key r = Some (RawSecret_Value r))
    ∧ (∀ k, k ∉ RawSecret_Key <$> records → kv !! k = None)
    ∧ (Data_Secrets (Body_Data data) = [] → kv = ∅).
Proof.
  intros Hperf Hjson Hall Hnodup. exists (recorded ∅ records).
  rewrite (GetSecrets_exchange _ _ _ _ _ Hperf Hjson).
  unfold getSecretsFromPayload.
  rewrite (getSecretsFromPayload_range_recorded _ _ _ _ Hall).
  split_and!.
  - reflexivity.
  - rewrite (length_mapM _ _ _ Hall), recorded_size_NoDup; [|done|].
    + by rewrite map_size_empty.
    + intros. apply lookup_empty.
  - intros r Hin. by rewrite recorded_lookup, lastValue_NoDup.
  - intros k Hk. by rewrite recorded_lookup, lastValue_None.
  - intros Hnil. rewrite Hnil in Hall. by injection Hall as <-.
Qed.


(** ** Further properties of the transport *)

(** What [buildRequest] did when it yields a request. *)
Lemma buildRequest_inv h c path method hs params body req :
  buildRequest h c path method hs params body = Some (inl req) →
  ∃ p0 base reqURL req0,
    baseURL c = Some p0 ∧ h !! p0 = Some base
    ∧ url_Parse (URL_String base +:+ path) = Ok reqURL
    ∧ http_NewRequest method (URL_String reqURL) body = Ok req0
    ∧ Request_Method req = Request_Method req0
    ∧ Request_Body req = Request_Body req0
    ∧ Request_URL req
      = URL_set_RawQuery (Request_URL req0)
          (Values_Encode
             (map_fold (λ key value query, Values_Add query key value)
                       (URL_Query (Request_URL req0)) params))
    ∧ Request_Header req
      = foldl (λ hd kv, Header_Set hd kv.1 kv.2)
          (Header_Set
             (Header_Set
                (let hd := Request_Header req0 in
                 let hd :=
                   if bool_decide (method = "POST")
                      && bool_decide (Header_Get hd "content-type" = "")
                   then Header_Set hd "content-type" "application/json"
                   else hd in
                 if bool_decide (Header_Get hd "accept" = "")
                 then Header_Set hd "accept" "application/json" else hd)
                "user-agent" (UserAgent c))
             "api_key" (OnboardbaseAPIKey c))
          hs.
Proof.
  unfold buildRequest, BaseURL, alloc. intros Hreq.
  destruct (baseURL c) as [p0|]; [cbn in Hreq|done].
  destruct (h !! p0) as [base|] eqn:Hbase; [cbn in Hreq|done].
  rewrite lookup_insert_eq in Hreq. cbn in Hreq.
  destruct (url_Parse _) as [reqURL|] eqn:Hparse; [|done].
  destruct (http_NewRequest _ _ _) as [req0|] eqn:Hnew; [|done].
  injection Hreq as <-. exists p0, base, reqURL, req0.
  split_and!; try done. by destruct body.
Qed.

(** An error of [buildRequest] has no data snippet. *)
Lemma buildRequest_error_data h c path method hs params body apiErr :
  buildRequest h c path method hs params body = Some (inr apiErr) →
  APIError_Data apiErr = "".
Proof.
  unfold buildRequest. intros Hreq.
  destruct (BaseURL h c) as [[u h']|]; [cbn in Hreq|done].
  destruct (h' !! u); [cbn in Hreq|done].
  destruct (url_Parse _); [|by injection Hreq as <-].
  destruct (http_NewRequest _ _ _); [done|by injection Hreq as <-].
Qed.

(** X1. A nil error of [performRequest] always comes with a response:
    the exchange took place, the body was read in full and is attached to
    the response, and the status code lies in [200, 399]. *)
Theorem performRequest_nil_error_has_response
    h c path method hs params body response :
  performRequest h c path method hs params body = Some (response, None) →
  ∃ req r bodyResponse,
    buildRequest h c path method hs params body = Some (inl req)
    ∧ http_Client_Do (httpClient c) req = Ok r
    ∧ Response_Body r = Ok bodyResponse
    ∧ 200 ≤ StatusCode r ≤ 399
    ∧ response = Some {| HTTPResponse := r; Body := Some bodyResponse |}.
Proof.
  unfold performRequest. intros Hperf.
  destruct (buildRequest _ _ _ _ _ _ _) as [[req|apiErr]|];
    cbn in Hperf; try done.
  destruct (http_Client_Do _ req) as [r|] eqn:Hdo; [|done].
  destruct (Response_Body r) as [bodyResponse|] eqn:Hbody; [|done].
  destruct (isSuccess (StatusCode r)) eqn:Hok; cbn in Hperf.
  - injection Hperf as <-. exists req, r, bodyResponse.
    split_and!; try done; by apply isSuccess_range.
  - destruct (strings.HasPrefix _ _); [|done].
    by destruct (json_Unmarshal_apiErrorResponse bodyResponse).
Qed.

(** X2. No error of [performRequest] carries a data snippet: whatever
    the path, the body of the response is never copied into [Data]. *)
Theorem performRequest_error_has_no_data
    h c path method hs params body response apiErr :
  performRequest h c path method hs params body
  = Some (response, Some apiErr) →
  APIError_Data apiErr = "".
Proof.
  unfold performRequest. intros Hperf.
  destruct (buildRequest _ _ _ _ _ _ _) as [[req|buildErr]|] eqn:Hreq;
    cbn in Hperf; try done.
  - destruct (http_Client_Do _ req) as [r|]; [|by injection Hperf as _ <-].
    destruct (Response_Body r) as [bodyResponse|];
      [|by injection Hperf as _ <-].
    destruct (isSuccess (StatusCode r)); cbn in Hperf; [done|].
    destruct (strings.HasPrefix _ _); [|by injection Hperf as _ <-].
    destruct (json_Unmarshal_apiErrorResponse bodyResponse);
      by injection Hperf as _ <-.
  - injection Hperf as _ <-. by eapply buildRequest_error_data.
Qed.

(** X3. A refused exchange with a JSON error envelope: [performRequest]
    returns the response together with an error whose message is the
    messages of the envelope joined by line feeds, and whose text is the
    client prefix followed by that message. *)
Theorem performRequest_JSON_rejection_joins_messages
    h c path method hs params body req r bodyResponse errResponse :
  buildRequest h c path method hs params body = Some (inl req) →
  http_Client_Do (httpClient c) req = Ok r →
  Response_Body r = Ok bodyResponse →
  isSuccess (StatusCode r) = false →
  strings.HasPrefix (Header_Get (Response_Header r) "content-type")
                    "application/json" = true →
  json_Unmarshal_apiErrorResponse bodyResponse = Ok errResponse →
  ∃ apiErr,
    performRequest h c path method hs params body
    = Some (Some {| HTTPResponse := r; Body := Some bodyResponse |},
            Some apiErr)
    ∧ APIError_Err apiErr = None
    ∧ APIError_Message apiErr = strings.Join (Messages errResponse) LF
    ∧ APIError_Error apiErr
      = "Onboardbase API Client Error: "
        +:+ strings.Join (Messages errResponse) LF.
Proof.
  intros Hreq Hdo Hbody Hfail Hct Hjson.
  rewrite (performRequest_exchange _ _ _ _ _ _ _ _ _ _ Hreq Hdo Hbody).
  rewrite Hfail, Hct, Hjson. eexists. split_and!; reflexivity.
Qed.

(** X4. A refused exchange whose body claims to be JSON and is not an
    error envelope fails with the decoder's error, and still returns the
    response. *)
Theorem performRequest_malformed_error_body
    h c path method hs params body req r bodyResponse err :
  buildRequest h c path method hs params body = Some (inl req) →
  http_Client_Do (httpClient c) req = Ok r →
  Response_Body r = Ok bodyResponse →
  isSuccess (StatusCode r) = false →
  strings.HasPrefix (Header_Get (Response_Header r) "content-type")
                    "application/json" = true →
  json_Unmarshal_apiErrorResponse bodyResponse = Fail err →
  performRequest h c path method hs params body
  = Some (Some {| HTTPResponse := r; Body := Some bodyResponse |},
          Some {| APIError_Err := Some err;
                  APIError_Message := "unable to unmarshal error JSON payload";
                  APIError_Data := "" |}).
Proof.
  intros Hreq Hdo Hbody Hfail Hct Hjson.
  rewrite (performRequest_exchange _ _ _ _ _ _ _ _ _ _ Hreq Hdo Hbody).
  by rewrite Hfail, Hct, Hjson.
Qed.

(** X5. When the body cannot be read in full, [performRequest] returns
    both the response, with a nil body, and the reader's error, whatever
    the status code. *)
Theorem performRequest_read_failure_keeps_response
    h c path method hs params body req r err :
  buildRequest h c path method hs params body = Some (inl req) →
  http_Client_Do (httpClient c) req = Ok r →
  Response_Body r = Fail err →
  performRequest h c path method hs params body
  = Some (Some {| HTTPResponse := r; Body := None |},
          Some {| APIError_Err := Some err;
                  APIError_Message := "unable to read entire response body";
                  APIError_Data := "" |}).
Proof.
  intros Hreq Hdo Hbody. unfold performRequest.
  rewrite Hreq; cbn. by rewrite Hdo, Hbody.
Qed.

(** X6. When the exchange itself fails, [performRequest] returns no
    response and wraps the cause of the failure. *)
Theorem performRequest_transport_failure
    h c path method hs params body req err :
  buildRequest h c path method hs params body = Some (inl req) →
  http_Client_Do (httpClient c) req = Fail err →
  performRequest h c path method hs params body
  = Some (None,
          Some {| APIError_Err := Some err;
                  APIError_Message := "unable to load response";
                  APIError_Data := "" |}).
Proof.
  intros Hreq Hdo. unfold performRequest. rewrite Hreq; cbn. by rewrite Hdo.
Qed.

(** X7. When the base URL joined with the path does not parse,
    [performRequest] fails with an error that names the joined string,
    and it does so whatever the transport would answer. *)
Theorem performRequest_invalid_URL
    h c path method hs params body p0 base err :
  baseURL c = Some p0 →
  h !! p0 = Some base →
  url_Parse (URL_String base +:+ path) = Fail err →
  performRequest h c path method hs params body
  = Some (None,
          Some {| APIError_Err := Some err;
                  APIError_Message :=
                    "invalid API URL: " +:+ URL_String base +:+ path;
                  APIError_Data := "" |}).
Proof.
  intros Hc Hbase Hparse.
  unfold performRequest, buildRequest, BaseURL, alloc.
  rewrite Hc; cbn. rewrite Hbase; cbn. rewrite lookup_insert_eq; cbn.
  by rewrite Hparse.
Qed.

(** The loop over the query parameters appends each value to the values
    of its key and leaves the other keys alone. *)
Lemma Values_Add_fold_lookup (params : gmap string string) (query : Values) k :
  map_fold (λ key value query, Values_Add query key value) query params !! k
  = match params !! k with
    | Some v => Some (default [] (query !! k) ++ [v])
    | None => query !! k
    end.
Proof.
  revert k.
  apply (map_fold_weak_ind
           (λ (r : Values) (m : gmap string string),
              ∀ k, r !! k = match m !! k with
                            | Some v => Some (default [] (query !! k) ++ [v])
                            | None => query !! k
                            end)).
  - intros k. by rewrite lookup_empty.
  - intros i x m r Hi IH k. unfold Values_Add.
    destruct (decide (i = k)) as [->|Hne].
    + rewrite !lookup_insert_eq. by rewrite IH, Hi.
    + rewrite !lookup_insert_ne by done. apply IH.
Qed.

(** X8. The query of the outbound request is the encoding of the query
    of the new request with the value of each parameter appended to the
    values of its key; the keys that are no parameter keep their values,
    and the method and the body are those of the new request. *)
Theorem buildRequest_appends_query_parameters
    h c path method hs params body req :
  buildRequest h c path method hs params body = Some (inl req) →
  ∃ reqURL req0 (query : Values),
    http_NewRequest method (URL_String reqURL) body = Ok req0
    ∧ RawQuery (Request_URL req) = Values_Encode query
    ∧ (∀ k v, params !! k = Some v →
              query !! k
              = Some (default [] (URL_Query (Request_URL req0) !! k) ++ [v]))
    ∧ (∀ k, params !! k = None →
            query !! k = URL_Query (Request_URL req0) !! k)
    ∧ Path (Request_URL req) = Path (Request_URL req0)
    ∧ Host (Request_URL req) = Host (Request_URL req0)
    ∧ Request_Method req = Request_Method req0
    ∧ Request_Body req = Request_Body req0.
Proof.
  intros Hreq.
  destruct (buildRequest_inv _ _ _ _ _ _ _ _ Hreq)
    as (p0 & base & reqURL & req0 & _ & _ & _ & Hnew & Hm & Hb & Hu & _).
  exists reqURL, req0,
    (map_fold (λ key value query, Values_Add query key value)
              (URL_Query (Request_URL req0)) params).
  rewrite Hu. split_and!; try done.
  - intros k v Hk. by rewrite Values_Add_fold_lookup, Hk.
  - intros k Hk. by rewrite Values_Add_fold_lookup, Hk.
Qed.


(** X9. With no caller header, on a new request that has no header yet,
    the outbound request carries [accept], [user-agent] and [api_key], a
    [content-type] exactly when the method is POST, and no other header. *)
Theorem buildRequest_default_headers h c path method params body req :
  NoDup (CanonicalMIMEHeaderKey
           <$> ["content-type"; "accept"; "user-agent"; "api_key"]) →
  (∀ m u b req0, http_NewRequest m u b = Ok req0 → Request_Header req0 = ∅) →
  buildRequest h c path method [] params body = Some (inl req) →
  Header_Get (Request_Header req) "accept" = "application/json"
  ∧ Header_Get (Request_Header req) "content-type"
    = (if bool_decide (method = "POST") then "application/json" else "")
  ∧ Header_Get (Request_Header req) "user-agent" = UserAgent c
  ∧ Header_Get (Request_Header req) "api_key" = OnboardbaseAPIKey c
  ∧ ∀ k, k ∉ CanonicalMIMEHeaderKey
               <$> ["content-type"; "accept"; "user-agent"; "api_key"] →
         Request_Header req !! k = None.
Proof.
  intros Hnodup Hnew Hreq.
  destruct (buildRequest_inv _ _ _ _ _ _ _ _ Hreq)
    as (p0 & base & reqURL & req0 & _ & _ & _ & Hreq0 & _ & _ & _ & ->).
  rewrite (Hnew _ _ _ _ Hreq0). clear Hreq Hreq0 Hnew.
  rewrite !fmap_cons, fmap_nil in *.
  rewrite !NoDup_cons, !not_elem_of_cons in Hnodup.
  destruct Hnodup as ((? & ? & ? & _) & (? & ? & _) & (? & _) & _).
  cbn [foldl].
  assert (Header_Get ∅ "content-type" = "") as ->
    by (unfold Header_Get; by rewrite lookup_empty).
  rewrite (bool_decide_eq_true_2 ("" = "")) by done. rewrite andb_true_r.
  unfold Header_Get, Header_Set.
  destruct (bool_decide (method = "POST")).
  - assert ((<[CanonicalMIMEHeaderKey "content-type" := ["application/json"]]>
               (∅ : Header)) !! CanonicalMIMEHeaderKey "accept" = None) as ->
      by by simplify_map_eq.
    rewrite bool_decide_eq_true_2 by done.
    split_and!; try by simplify_map_eq.
    intros k Hk. rewrite !not_elem_of_cons in Hk.
    destruct Hk as (? & ? & ? & ? & _). by simplify_map_eq.
  - assert ((∅ : Header) !! CanonicalMIMEHeaderKey "accept" = None) as ->
      by apply lookup_empty.
    rewrite bool_decide_eq_true_2 by done.
    split_and!; try by simplify_map_eq.
    intros k Hk. rewrite !not_elem_of_cons in Hk.
    destruct Hk as (? & ? & ? & ? & _). by simplify_map_eq.
Qed.

(** X10. Once the exchange took place and the body was read,
    [Authenticate] returns a nil error exactly when the status code lies
    in [200, 399]. *)
Theorem Authenticate_succeeds_iff_status h c req r bodyResponse :
  buildRequest h c "/team/members" "GET" [] ∅ (Some "") = Some (inl req) →
  http_Client_Do (httpClient c) req = Ok r →
  Response_Body r = Ok bodyResponse →
  Authenticate h c = Some None ↔ 200 ≤ StatusCode r ≤ 399.
Proof.
  intros Hreq Hdo Hbody. unfold Authenticate.
  rewrite (performRequest_exchange _ _ _ _ _ _ _ _ _ _ Hreq Hdo Hbody).
  rewrite <- isSuccess_range. cbn.
  destruct (isSuccess (StatusCode r)); [done|].
  destruct (strings.HasPrefix _ _); [|done].
  by destruct (json_Unmarshal_apiErrorResponse bodyResponse).
Qed.

(** *** The text of an error *)

Lemma append_cons (x : ascii) (a b : string) :
  String x a +:+ b = String x (a +:+ b).
Proof. reflexivity. Qed.

Lemma prefix_append (a b : string) : String.prefix a (a +:+ b) = true.
Proof.
  induction a as [|x a IH]; [by destruct b|].
  rewrite append_cons. cbn [String.prefix].
  destruct (ascii_dec x x); [apply IH|done].
Qed.

Lemma append_assoc (a b d : string) : (a +:+ b) +:+ d = a +:+ b +:+ d.
Proof.
  induction a as [|x a IH]; [done|]. by rewrite !append_cons, IH.
Qed.

Lemma append_empty_r (a : string) : a +:+ "" = a.
Proof. induction a as [|x a IH]; [done|]. by rewrite append_cons, IH. Qed.

(** X11. The text of every [APIError] starts with the client prefix
    followed by the message; without cause and without data it is exactly
    that; with data it ends with the data. *)
Theorem APIError_Error_starts_with_message (e : APIError) :
  strings.HasPrefix (APIError_Error e)
    ("Onboardbase API Client Error: " +:+ APIError_Message e) = true
  ∧ (APIError_Err e = None → APIError_Data e = "" →
     APIError_Error e
     = "Onboardbase API Client Error: " +:+ APIError_Message e)
  ∧ (APIError_Data e ≠ "" →
     ∃ text, APIError_Error e = text +:+ LF +:+ "Data: " +:+ APIError_Data e).
Proof.
  unfold APIError_Error, strings.HasPrefix.
  destruct e as [cause message data].
  cbn [APIError_Err APIError_Message APIError_Data].
  set (head := "Onboardbase API Client Error: " +:+ message).
  assert (String.prefix head head = true) as Hrefl.
  { rewrite <- (append_empty_r head) at 2. apply prefix_append. }
  split_and!.
  - destruct cause; case_bool_decide;
      rewrite ?append_assoc; auto using prefix_append.
  - intros -> ->. by rewrite bool_decide_eq_false_2 by (intros Hne; by apply Hne).
  - intros Hdata. rewrite bool_decide_eq_true_2 by done. eauto.
Qed.


(** ** Further properties of the decryption loop and the read operations *)




(** X13. The first envelope that does not decrypt stops the loop with
    an error that wraps the decryptor's error and carries this envelope,
    whatever follows it. *)
Theorem getSecretsFromPayload_decrypt_failure
    c data before records secret err after :
  Data_Secrets data = before ++ secret :: after →
  mapM (decryptedRecord c) before = Some records →
  aesdecrypt_Run secret (OnboardbasePassCode c) = Fail err →
  getSecretsFromPayload c data
  = (None, Some {| APIError_Err := Some err;
                   APIError_Message := "unable to decrypt secret payload";
                   APIError_Data := secret |}).
Proof.
  unfold getSecretsFromPayload. intros -> Hall Hrun.
  generalize (∅ : gmap string string). revert Hall. rewrite mapM_Some.
  intros Hall. induction Hall as [|s r ss rs Hrec _ IH]; intros kv.
  - cbn. by rewrite Hrun.
  - destruct (decryptedRecord_Some _ _ _ Hrec) as (d & Hd & Hj).
    cbn. rewrite Hd, Hj. apply IH.
Qed.

(** X14. The first envelope whose plaintext does not decode stops the
    loop with an error that wraps the decoder's error and carries this
    plaintext, whatever follows it. *)
Theorem getSecretsFromPayload_decode_failure
    c data before records secret decrypted err after :
  Data_Secrets data = before ++ secret :: after →
  mapM (decryptedRecord c) before = Some records →
  aesdecrypt_Run secret (OnboardbasePassCode c) = Ok decrypted →
  json_Unmarshal_RawSecret decrypted = Fail err →
  getSecretsFromPayload c data
  = (None, Some {| APIError_Err := Some err;
                   APIError_Message := "unable to unmarshal secret payload";
                   APIError_Data := decrypted |}).
Proof.
  unfold getSecretsFromPayload. intros -> Hall Hrun Hjson.
  by eapply getSecretsFromPayload_range_decode_error.
Qed.

(** X15. After a successful exchange and parse, when every envelope
    holds a record and the last record that bears the requested name has
    a value that is not empty, [GetSecret] returns the name with this
    value and no error. *)
Theorem GetSecret_returns_last_value
    h c request response data records value :
  performRequest h c "/secrets" "GET" []
    (SecretRequest_buildQueryParams request) (Some "")
  = Some (Some response, None) →
  json_Unmarshal_secretResponseBody (default "" (Body response)) = Ok data →
  mapM (decryptedRecord c) (Data_Secrets (Body_Data data)) = Some records →
  lastValue (SecretRequest_Name request) records = Some value →
  value ≠ "" →
  GetSecret h c request
  = Some (Some {| SecretResponse_Name := SecretRequest_Name request;
                  SecretResponse_Value := value |}, None).
Proof.
  intros Hperf Hjson Hall Hlast Hvalue.
  rewrite (GetSecret_exchange _ _ _ _ _ Hperf Hjson). cbn zeta.
  unfold getSecretsFromPayload.
  rewrite (getSecretsFromPayload_range_recorded _ _ _ _ Hall).
  unfold index; cbn [fst]. rewrite recorded_lookup, Hlast; cbn.
  by rewrite bool_decide_eq_false_2.
Qed.

(** X16. Both read operations hand an error of [performRequest] to
    their caller as it is, with no result. *)
Theorem read_operations_propagate_transport_error
    h c project environment name response apiErr :
  performRequest h c "/secrets" "GET" []
    (SecretsRequest_buildQueryParams
       {| SecretsRequest_Environment := environment;
          SecretsRequest_Project := project |}) (Some "")
  = Some (response, Some apiErr) →
  GetSecrets h c {| SecretsRequest_Environment := environment;
                    SecretsRequest_Project := project |}
  = Some (None, Some apiErr)
  ∧ GetSecret h c {| SecretRequest_Environment := environment;
                     SecretRequest_Project := project;
                     SecretRequest_Name := name |}
    = Some (None, Some apiErr).
Proof.
  intros Hperf. unfold GetSecrets, GetSecret.
  change (SecretRequest_buildQueryParams _)
    with (SecretsRequest_buildQueryParams
            {| SecretsRequest_Environment := environment;
               SecretsRequest_Project := project |}).
  by rewrite Hperf.
Qed.

(** X17. When the body of a successful response is not the JSON
    envelope, both read operations fail with the decoder's error and carry
    the raw body as data. *)
Theorem read_operations_report_malformed_body
    h c project environment name response err :
  performRequest h c "/secrets" "GET" []
    (SecretsRequest_buildQueryParams
       {| SecretsRequest_Environment := environment;
          SecretsRequest_Project := project |}) (Some "")
  = Some (Some response, None) →
  json_Unmarshal_secretResponseBody (default "" (Body response)) = Fail err →
  GetSecrets h c {| SecretsRequest_Environment := environment;
                    SecretsRequest_Project := project |}
  = Some (None, Some {| APIError_Err := Some err;
                        APIError_Message := "unable to unmarshal secret payload";
                        APIError_Data := default "" (Body response) |})
  ∧ GetSecret h c {| SecretRequest_Environment := environment;
                     SecretRequest_Project := project;
                     SecretRequest_Name := name |}
    = Some (None, Some {| APIError_Err := Some err;
                          APIError_Message :=
                            "unable to unmarshal secret payload";
                          APIError_Data := default "" (Body response) |}).
Proof.
  intros Hperf Hjson. unfold GetSecrets, GetSecret.
  change (SecretRequest_buildQueryParams _)
    with (SecretsRequest_buildQueryParams
            {| SecretsRequest_Environment := environment;
               SecretsRequest_Project := project |}).
  rewrite Hperf; cbn. by rewrite Hjson.
Qed.

(** X18. The two read operations agree: whenever [GetSecret] returns a
    secret, [GetSecrets] for the same project and environment succeeds
    with a map that binds the name to the same value. *)
Theorem GetSecret_agrees_with_GetSecrets
    h c project environment name secret err :
  GetSecret h c {| SecretRequest_Environment := environment;
                   SecretRequest_Project := project;
                   SecretRequest_Name := name |}
  = Some (Some secret, err) →
  ∃ (kv : gmap string string) body,
    GetSecrets h c {| SecretsRequest_Environment := environment;
                      SecretsRequest_Project := project |}
    = Some (Some {| SecretsResponse_Secrets := Some kv;
                    SecretsResponse_Body := body |}, None)
    ∧ kv !! name = Some (SecretResponse_Value secret).
Proof.
  unfold GetSecret, GetSecrets.
  change (SecretRequest_buildQueryParams _)
    with (SecretsRequest_buildQueryParams
            {| SecretsRequest_Environment := environment;
               SecretsRequest_Project := project |}).
  cbn [SecretRequest_Name]. intros Hget.
  destruct (performRequest _ _ _ _ _ _ _) as [[response [apiErr|]]|];
    cbn in Hget |- *; try done.
  destruct response as [response|]; cbn in Hget |- *; [|done].
  destruct (json_Unmarshal_secretResponseBody _) as [data|]; [|done].
  destruct (getSecretsFromPayload c _) as [[kv|] dropped];
    cbn in Hget; [|done].
  case_bool_decide as Hvalue; [done|]. injection Hget as <- <-.
  exists kv, (Body response). split; [done|]. cbn.
  destruct (kv !! name); [done|by destruct Hvalue].
Qed.






(** ** Further properties of the base URL and of construction *)

Lemma length_append (a b : string) :
  String.length (a +:+ b) = (String.length a + String.length b)%nat.
Proof.
  induction a as [|x a IH]; [done|]. rewrite append_cons. cbn. by rewrite IH.
Qed.

Lemma substring_0_append (a b : string) :
  String.substring 0 (String.length a) (a +:+ b) = a.
Proof.
  induction a as [|x a IH]; [by destruct b|].
  rewrite append_cons. cbn. by rewrite IH.
Qed.

Lemma substring_0_length (b : string) :
  String.substring 0 (String.length b) b = b.
Proof. induction b as [|x b IH]; [done|]. cbn. by rewrite IH. Qed.

Lemma substring_skip_append (a b : string) (m : nat) :
  String.substring (String.length a) m (a +:+ b) = String.substring 0 m b.
Proof. induction a as [|x a IH]; [done|]. rewrite append_cons. apply IH. Qed.

Lemma TrimSuffix_append (s suffix : string) :
  strings.TrimSuffix (s +:+ suffix) suffix = s.
Proof.
  unfold strings.TrimSuffix, strings.HasSuffix. rewrite length_append.
  rewrite (proj2 (Nat.leb_le _ _)) by lia.
  replace (String.length s + String.length suffix - String.length suffix)%nat
    with (String.length s) by lia.
  rewrite substring_skip_append, substring_0_length.
  rewrite bool_decide_eq_true_2 by done. apply substring_0_append.
Qed.

(** X21. [SetBaseURL] parses the string without its trailing slash:
    setting [s/] is setting [s], for every [s] that does not itself end
    with a slash. *)
Theorem SetBaseURL_ignores_one_trailing_slash h c (s : string) :
  strings.HasSuffix s "/" = false →
  SetBaseURL h c (s +:+ "/") = SetBaseURL h c s.
Proof.
  intros Hs. unfold SetBaseURL. rewrite TrimSuffix_append.
  unfold strings.TrimSuffix. by rewrite Hs.
Qed.


(** ** Properties of the provider *)

(** X23. On a store that has no Onboardbase provider, [NewClient]
    returns the error of a missing or invalid store without resolving any
    credential, while [ValidateStore] panics. *)
Theorem store_without_Onboardbase_provider h ctx store kube namespace :
  providerOf store = None →
  NewClient h ctx store kube namespace
  = Some (h, (None, Some "missing or invalid Onboardbase SecretStore"))
  ∧ ValidateStore store = None.
Proof.
  unfold NewClient, ValidateStore, providerOf. intros Hnone.
  destruct (GetSpec store) as [storeSpec|]; cbn in *; [|done].
  destruct (Provider storeSpec) as [provider|]; cbn in *; [|done].
  by rewrite Hnone.
Qed.

(** X24. On a store with an Onboardbase provider, when [setAuth]
    resolves the credentials and the fixed base URL parses, [NewClient]
    returns a client whose Onboardbase client holds exactly the resolved
    API key and passcode, and whose project and environment are those of
    the store. *)
Theorem NewClient_success
    h ctx store kube namespace provider resolved provider' parsed :
  providerOf store = Some provider →
  setAuth ctx {| Client_kube := kube;
                 Client_store := Some provider;
                 Client_namespace := namespace;
                 Client_storeKind := GetObjectKind_Kind store;
                 Client_onboardbaseAPIKey := "";
                 Client_onboardbasePasscode := "";
                 Client_onboardbase := None;
                 Client_project := "";
                 Client_environment := "" |} = (resolved, None) →
  Client_store resolved = Some provider' →
  url_Parse "https://public.onboardbase.com/api/v1" = Ok parsed →
  ∃ h' client onboardbase,
    NewClient h ctx store kube namespace = Some (h', (Some client, None))
    ∧ Client_onboardbase client = Some onboardbase
    ∧ OnboardbaseAPIKey onboardbase = Client_onboardbaseAPIKey resolved
    ∧ OnboardbasePassCode onboardbase = Client_onboardbasePasscode resolved
    ∧ is_Some (baseURL onboardbase ≫= (h' !!.))
    ∧ Client_project client = Provider_Project provider'
    ∧ Client_environment client = Provider_Environment provider'
    ∧ Client_onboardbaseAPIKey client = Client_onboardbaseAPIKey resolved
    ∧ Client_onboardbasePasscode client = Client_onboardbasePasscode resolved.
Proof.
  unfold NewClient, providerOf. intros Hprovider Hauth Hstore Hparse.
  destruct (GetSpec store) as [storeSpec|]; cbn in Hprovider; [|done].
  destruct (Provider storeSpec) as [sp|]; cbn in Hprovider; [|done].
  rewrite Hprovider, Hauth.
  unfold NewOnboardbaseClient, SetBaseURL, alloc.
  rewrite TrimSuffix_base, Hparse, Hstore. cbn.
  eexists _, _, _. split_and!; try reflexivity.
  cbn. rewrite lookup_insert_eq. eauto.
Qed.

(** X25. When [setAuth] fails, [NewClient] returns its error as it is,
    builds no Onboardbase client and leaves the store as it was. *)
Theorem NewClient_setAuth_failure
    h ctx store kube namespace provider resolved err :
  providerOf store = Some provider →
  setAuth ctx {| Client_kube := kube;
                 Client_store := Some provider;
                 Client_namespace := namespace;
                 Client_storeKind := GetObjectKind_Kind store;
                 Client_onboardbaseAPIKey := "";
                 Client_onboardbasePasscode := "";
                 Client_onboardbase := None;
                 Client_project := "";
                 Client_environment := "" |} = (resolved, Some err) →
  NewClient h ctx store kube namespace = Some (h, (None, Some err)).
Proof.
  unfold NewClient, providerOf. intros Hprovider Hauth.
  destruct (GetSpec store) as [storeSpec|]; cbn in Hprovider; [|done].
  destruct (Provider storeSpec) as [sp|]; cbn in Hprovider; [|done].
  by rewrite Hprovider, Hauth.
Qed.

(** X26. [ValidateStore] accepts a store exactly when it has an
    Onboardbase provider with credentials references, both references
    pass the selector validation, and both name a secret. *)
Theorem ValidateStore_accepts_iff store :
  ValidateStore store = Some None
  ↔ ∃ auth,
      authOf store = Some auth
      ∧ utils_ValidateSecretSelector store (Auth_OnboardbaseAPIKey auth) = None
      ∧ Selector_Name (Auth_OnboardbaseAPIKey auth) ≠ ""
      ∧ utils_ValidateSecretSelector store (Auth_OnboardbasePasscode auth)
        = None
      ∧ Selector_Name (Auth_OnboardbasePasscode auth) ≠ "".
Proof.
  unfold ValidateStore, authOf, providerOf.
  destruct (GetSpec store) as [storeSpec|]; cbn;
    [|split; [done|by intros (? & ? & _)]].
  destruct (Provider storeSpec) as [provider|]; cbn;
    [|split; [done|by intros (? & ? & _)]].
  destruct (Onboardbase provider) as [sp|]; cbn;
    [|split; [done|by intros (? & ? & _)]].
  destruct (Provider_Auth sp) as [auth|]; cbn;
    [|split; [done|by intros (? & ? & _)]].
  split.
  - intros Hvalid. exists auth.
    destruct (utils_ValidateSecretSelector
                store (Auth_OnboardbaseAPIKey auth)); [done|].
    case_bool_decide; [done|].
    destruct (utils_ValidateSecretSelector
                store (Auth_OnboardbasePasscode auth)); [done|].
    by case_bool_decide.
  - intros (auth' & Hauth & Hsel1 & Hkey & Hsel2 & Hpass).
    injection Hauth as <-. rewrite Hsel1, Hsel2.
    by rewrite !bool_decide_eq_false_2.
Qed.

(** X27. Every error of [ValidateStore] starts with [invalid store: ],
    and the API key reference is judged first: when it fails the selector
    validation or names no secret, the error is about it, whatever the
    passcode reference is. *)
Theorem ValidateStore_errors store auth :
  authOf store = Some auth →
  (∀ err, ValidateStore store = Some (Some err) →
          strings.HasPrefix err "invalid store: " = true)
  ∧ (∀ cause,
        utils_ValidateSecretSelector store (Auth_OnboardbaseAPIKey auth)
        = Some cause →
        ValidateStore store = Some (Some ("invalid store: " +:+ cause)))
  ∧ (utils_ValidateSecretSelector store (Auth_OnboardbaseAPIKey auth) = None →
     Selector_Name (Auth_OnboardbaseAPIKey auth) = "" →
     ValidateStore store
     = Some (Some "invalid store: onboardbaseAPIKey.name cannot be empty")).
Proof.
  unfold ValidateStore, authOf, providerOf. intros Hauth.
  destruct (GetSpec store) as [storeSpec|]; cbn in *; [|done].
  destruct (Provider storeSpec) as [provider|]; cbn in *; [|done].
  destruct (Onboardbase provider) as [sp|]; cbn in *; [|done].
  rewrite Hauth; cbn. split_and!.
  - intros err Herr. injection Herr as Herr. revert Herr.
    unfold errInvalidStore, strings.HasPrefix.
    repeat (case_bool_decide || case_match); intros; simplify_eq;
      apply prefix_append.
  - by intros cause ->.
  - intros -> ->. by rewrite bool_decide_eq_true_2.
Qed.

End Client.

(** ** The client on concrete exchanges

    The client of the constructor, with API key [obb_key] and passcode
    [p1], over the test doubles; [answer] is what the remote service
    replies. *)

Local Abbreviation served_buildRequest :=
  (buildRequest fixture.Parse fixture.URL_String fixture.Query fixture.Encode
     fixture.CanonicalMIMEHeaderKey fixture.NewRequest).

Local Abbreviation served_performRequest answer :=
  (performRequest (fixture.Unmarshal fixture.errorBodies)
     fixture.Parse fixture.URL_String fixture.Query fixture.Encode
     fixture.CanonicalMIMEHeaderKey fixture.NewRequest (fixture.Do answer)).

Local Abbreviation served_getSecretsFromPayload :=
  (getSecretsFromPayload (fixture.Run fixture.envelopes)
     (fixture.Unmarshal fixture.records)).

Local Abbreviation served_GetSecret answer :=
  (GetSecret (fixture.Run fixture.envelopes)
     (fixture.Unmarshal fixture.records) (fixture.Unmarshal fixture.bodies)
     (fixture.Unmarshal fixture.errorBodies)
     fixture.Parse fixture.URL_String fixture.Query fixture.Encode
     fixture.CanonicalMIMEHeaderKey fixture.NewRequest (fixture.Do answer)).

Local Abbreviation served_GetSecrets answer :=
  (GetSecrets (fixture.Run fixture.envelopes)
     (fixture.Unmarshal fixture.records) (fixture.Unmarshal fixture.bodies)
     (fixture.Unmarshal fixture.errorBodies)
     fixture.Parse fixture.URL_String fixture.Query fixture.Encode
     fixture.CanonicalMIMEHeaderKey fixture.NewRequest (fixture.Do answer)).

Local Abbreviation served_Header_Get :=
  (Header_Get fixture.CanonicalMIMEHeaderKey).

Local Abbreviation the_client := (fixture.client "obb_key" "p1").

Local Abbreviation json_answer secrets :=
  (fixture.response 200 "application/json" (fixture.bodyOf secrets)).

Local Abbreviation DB_URL_request :=
  {| SecretRequest_Environment := "dev"; SecretRequest_Project := "proj";
     SecretRequest_Name := "DB_URL" |}.

Local Abbreviation scope_request :=
  {| SecretsRequest_Environment := "dev"; SecretsRequest_Project := "proj" |}.

Example fmt_d_examples :
  fmt.d 500 = "500" ∧ fmt.d (-7) = "-7" ∧ fmt.d 0 = "0".
Proof. repeat split; reflexivity. Qed.

(** The request of [GetSecret] as it leaves the client. *)
Example outbound_request :
  ∃ req,
    served_buildRequest fixture.store the_client "/secrets" "GET" []
      (SecretRequest_buildQueryParams DB_URL_request) (Some "")
    = Some (inl req)
    ∧ fixture.URL_String (Request_URL req)
      = "https://public.onboardbase.com/api/v1/secrets?environment=dev&project=proj"
    ∧ served_Header_Get (Request_Header req) "api_key" = "obb_key"
    ∧ served_Header_Get (Request_Header req) "user-agent"
      = "onboardbase-external-secrets"
    ∧ served_Header_Get (Request_Header req) "accept" = "application/json"
    ∧ served_Header_Get (Request_Header req) "content-type" = "".
Proof.
  eexists. split; [vm_compute; reflexivity|].
  split_and!; vm_compute; reflexivity.
Qed.

(** The scenario of the specification: one envelope that holds [DB_URL]. *)
Example GetSecret_DB_URL :
  served_GetSecret (Ok (json_answer [fixture.enc1]))
    fixture.store the_client DB_URL_request
  = Some (Some {| SecretResponse_Name := "DB_URL";
                  SecretResponse_Value := "postgres://x" |}, None).
Proof. vm_compute. reflexivity. Qed.

(** The scenario of the specification: a 404 with a JSON error envelope. *)
Example performRequest_404 :
  served_performRequest
    (Ok (fixture.response 404 "application/json" fixture.notFoundBody))
    fixture.store the_client "/secrets" "GET" [] ∅ (Some "")
  = Some (Some {| HTTPResponse :=
                    fixture.response 404 "application/json"
                                     fixture.notFoundBody;
                  Body := Some fixture.notFoundBody |},
          Some {| APIError_Err := None; APIError_Message := "not found";
                  APIError_Data := "" |}).
Proof. vm_compute. reflexivity. Qed.

(** *** C1: the decode error of the loop does not reach the caller *)

(** C1, at a payload whose second envelope holds no JSON document:
    [getSecretsFromPayload] stops with the decode error that carries the
    plaintext, but [GetSecrets] drops it and succeeds with a nil map, and
    [GetSecret] drops it and reports the secret of the first envelope as
    not found. *)
Theorem C1_decode_error_is_discarded_by_both_operations :
  served_getSecretsFromPayload the_client
    (Body_Data (fixture.payloadOf [fixture.enc1; fixture.encBad]))
  = (None,
     Some {| APIError_Err :=
               Some "invalid character looking for beginning of value";
             APIError_Message := "unable to unmarshal secret payload";
             APIError_Data := "DB_URL=postgres://x" |})
  ∧ served_GetSecrets (Ok (json_answer [fixture.enc1; fixture.encBad]))
      fixture.store the_client scope_request
    = Some (Some {| SecretsResponse_Secrets := None;
                    SecretsResponse_Body :=
                      Some (fixture.bodyOf [fixture.enc1; fixture.encBad]) |},
            None)
  ∧ served_GetSecret (Ok (json_answer [fixture.enc1; fixture.encBad]))
      fixture.store the_client DB_URL_request
    = Some (None,
            Some {| APIError_Err := None;
                    APIError_Message :=
                      "secret DB_URL for project 'proj' and environment 'dev' not found";
                    APIError_Data := "" |}).
Proof. split_and!; vm_compute; reflexivity. Qed.

(** *** Instances of the theorems *)

(** C2 at a name no envelope bears. *)
Lemma C2_witness_missing_name :
  served_GetSecret (Ok (json_answer [fixture.enc1; fixture.enc2]))
    fixture.store the_client
    {| SecretRequest_Environment := "dev"; SecretRequest_Project := "proj";
       SecretRequest_Name := "MISSING" |}
  = Some (None,
          Some {| APIError_Err := None;
                  APIError_Message :=
                    "secret MISSING for project 'proj' and environment 'dev' not found";
                  APIError_Data := "" |}).
Proof.
  apply (C2_GetSecret_absent_or_empty_is_not_found
           (fixture.Run fixture.envelopes) (fixture.Unmarshal fixture.records)
           (fixture.Unmarshal fixture.bodies)
           (fixture.Unmarshal fixture.errorBodies)
           fixture.Parse fixture.URL_String fixture.Query fixture.Encode
           fixture.CanonicalMIMEHeaderKey fixture.NewRequest
           (fixture.Do (Ok (json_answer [fixture.enc1; fixture.enc2])))
           fixture.store the_client
           {| SecretRequest_Environment := "dev";
              SecretRequest_Project := "proj";
              SecretRequest_Name := "MISSING" |}
           {| HTTPResponse := json_answer [fixture.enc1; fixture.enc2];
              Body := Some (fixture.bodyOf [fixture.enc1; fixture.enc2]) |}
           (fixture.payloadOf [fixture.enc1; fixture.enc2])).
  - vm_compute. reflexivity.
  - vm_compute. reflexivity.
  - left. vm_compute. reflexivity.
Defined.

(** C3 at credentials that are not empty. *)
Lemma C3_witness_constructor :
  ∃ h' client,
    NewOnboardbaseClient fixture.Parse ∅ "obb_key" "p1"
    = (h', (Some client, None))
    ∧ OnboardbaseAPIKey client = "obb_key"
    ∧ OnboardbasePassCode client = "p1"
    ∧ UserAgent client = "onboardbase-external-secrets"
    ∧ is_Some (baseURL client ≫= (h' !!.)).
Proof.
  apply (C3_constructor_accepts_any_credentials
           fixture.Parse ∅ "obb_key" "p1" fixture.base).
  vm_compute. reflexivity.
Defined.

(** C3 as stated fails: with both credentials empty the constructor
    returns a client and no error. *)
Lemma C3_counterexample_empty_credentials :
  ∃ client,
    (NewOnboardbaseClient fixture.Parse ∅ "" "").2 = (Some client, None)
    ∧ OnboardbaseAPIKey client = ""
    ∧ OnboardbasePassCode client = "".
Proof.
  eexists. split; [vm_compute; reflexivity|]. split; reflexivity.
Qed.

(** C4 at a redirect. *)
Lemma C4_witness_redirect :
  (isSuccess (StatusCode (fixture.response 302 "text/html" "moved")) = true
   ↔ 200 ≤ StatusCode (fixture.response 302 "text/html" "moved") ≤ 399)
  ∧ (200 ≤ StatusCode (fixture.response 302 "text/html" "moved") ≤ 399 →
     served_performRequest (Ok (fixture.response 302 "text/html" "moved"))
       fixture.store the_client "/secrets" "GET" [] ∅ (Some "")
     = Some (Some {| HTTPResponse := fixture.response 302 "text/html" "moved";
                     Body := Some "moved" |}, None))
  ∧ (¬ (200 ≤ StatusCode (fixture.response 302 "text/html" "moved") ≤ 399) →
     ∃ response apiErr,
       served_performRequest (Ok (fixture.response 302 "text/html" "moved"))
         fixture.store the_client "/secrets" "GET" [] ∅ (Some "")
       = Some (response, Some apiErr)).
Proof.
  eapply (C4_success_iff_status_200_to_399
            (fixture.Unmarshal fixture.errorBodies)
            fixture.Parse fixture.URL_String fixture.Query fixture.Encode
            fixture.CanonicalMIMEHeaderKey fixture.NewRequest
            (fixture.Do (Ok (fixture.response 302 "text/html" "moved")))
            fixture.store the_client "/secrets" "GET" [] ∅ (Some "")).
  - vm_compute. reflexivity.
  - reflexivity.
  - reflexivity.
Defined.

(** C5 at a 500 with an HTML body. *)
Lemma C5_witness_server_error :
  served_performRequest
    (Ok (fixture.response 500 "text/html" "<h1>Internal Server Error</h1>"))
    fixture.store the_client "/secrets" "GET" [] ∅ (Some "")
  = Some (None, Some (statusRejected 500 30))
  ∧ APIError_Data (statusRejected 500 30) = ""
  ∧ APIError_Error (statusRejected 500 30)
    = "Onboardbase API Client Error: unable to load response" +:+ LF
      +:+ "500 status code; 30 bytes".
Proof.
  eapply (C5_non_JSON_rejection_hides_body
            (fixture.Unmarshal fixture.errorBodies)
            fixture.Parse fixture.URL_String fixture.Query fixture.Encode
            fixture.CanonicalMIMEHeaderKey fixture.NewRequest
            (fixture.Do (Ok (fixture.response 500 "text/html"
                                              "<h1>Internal Server Error</h1>")))
            fixture.store the_client "/secrets" "GET" [] ∅ (Some "") _
            (fixture.response 500 "text/html" "<h1>Internal Server Error</h1>")
            "<h1>Internal Server Error</h1>").
  - vm_compute. reflexivity.
  - reflexivity.
  - reflexivity.
  - vm_compute. reflexivity.
  - vm_compute. reflexivity.
Defined.

(** C7 at two envelopes with keys of their own. *)
Lemma C7_witness_two_records :
  ∃ kv : gmap string string,
    served_GetSecrets (Ok (json_answer [fixture.enc1; fixture.enc2]))
      fixture.store the_client scope_request
    = Some (Some {| SecretsResponse_Secrets := Some kv;
                    SecretsResponse_Body :=
                      Some (fixture.bodyOf [fixture.enc1; fixture.enc2]) |},
            None)
    ∧ size kv = 2%nat
    ∧ (∀ r, r ∈ [fixture.record "DB_URL" "postgres://x";
                 fixture.record "API_TOKEN" "t0k3n"] →
            kv !! RawSecret_Key r = Some (RawSecret_Value r))
    ∧ (∀ k, k ∉ RawSecret_Key <$> [fixture.record "DB_URL" "postgres://x";
                                    fixture.record "API_TOKEN" "t0k3n"] →
            kv !! k = None)
    ∧ (Data_Secrets (Body_Data (fixture.payloadOf [fixture.enc1; fixture.enc2]))
       = [] → kv = ∅).
Proof.
  apply (C7_GetSecrets_returns_every_record
           (fixture.Run fixture.envelopes) (fixture.Unmarshal fixture.records)
           (fixture.Unmarshal fixture.bodies)
           (fixture.Unmarshal fixture.errorBodies)
           fixture.Parse fixture.URL_String fixture.Query fixture.Encode
           fixture.CanonicalMIMEHeaderKey fixture.NewRequest
           (fixture.Do (Ok (json_answer [fixture.enc1; fixture.enc2])))
           fixture.store the_client scope_request
           {| HTTPResponse := json_answer [fixture.enc1; fixture.enc2];
              Body := Some (fixture.bodyOf [fixture.enc1; fixture.enc2]) |}
           (fixture.payloadOf [fixture.enc1; fixture.enc2])
           [fixture.record "DB_URL" "postgres://x";
            fixture.record "API_TOKEN" "t0k3n"]).
  - vm_compute. reflexivity.
  - vm_compute. reflexivity.
  - vm_compute. reflexivity.
  - apply (bool_decide_unpack _). vm_compute. exact I.
Defined.

(** C8 at a caller who names [accept] twice and no identity header. *)
Lemma C8_witness_accept_replaced :
  ∃ req,
    served_buildRequest fixture.store the_client "/secrets" "GET"
      [("accept", "text/plain"); ("Accept", "text/csv")] ∅ (Some "")
    = Some (inl req)
    ∧ (∀ key value,
          callerValue fixture.CanonicalMIMEHeaderKey key
            [("accept", "text/plain"); ("Accept", "text/csv")] = Some value →
          served_Header_Get (Request_Header req) key = value)
    ∧ (callerValue fixture.CanonicalMIMEHeaderKey "user-agent"
         [("accept", "text/plain"); ("Accept", "text/csv")] = None →
       served_Header_Get (Request_Header req) "user-agent"
       = UserAgent the_client)
    ∧ (callerValue fixture.CanonicalMIMEHeaderKey "api_key"
         [("accept", "text/plain"); ("Accept", "text/csv")] = None →
       served_Header_Get (Request_Header req) "api_key"
       = OnboardbaseAPIKey the_client).
Proof.
  eexists. split; [vm_compute; reflexivity|].
  apply (C8_caller_headers_replace_every_default
           fixture.Parse fixture.URL_String fixture.Query fixture.Encode
           fixture.CanonicalMIMEHeaderKey fixture.NewRequest
           fixture.store the_client "/secrets" "GET"
           [("accept", "text/plain"); ("Accept", "text/csv")] ∅ (Some "")).
  - vm_compute. discriminate.
  - vm_compute. reflexivity.
Defined.

(** C8 as stated fails: a caller who names [api_key] and [user-agent]
    replaces both identity headers of the request. *)
Lemma C8_counterexample_identity_headers_replaced :
  ∃ req,
    served_buildRequest fixture.store the_client "/secrets" "GET"
      [("api_key", "forged"); ("user-agent", "curl/8.5")] ∅ (Some "")
    = Some (inl req)
    ∧ served_Header_Get (Request_Header req) "api_key" = "forged"
    ∧ served_Header_Get (Request_Header req) "api_key"
      ≠ OnboardbaseAPIKey the_client
    ∧ served_Header_Get (Request_Header req) "user-agent" = "curl/8.5"
    ∧ served_Header_Get (Request_Header req) "user-agent"
      ≠ UserAgent the_client.
Proof.
  eexists. split; [vm_compute; reflexivity|].
  split_and!; vm_compute; congruence.
Qed.

(** C9 at the client of the constructor. *)
Lemma C9_witness_copy :
  ∃ p h',
    BaseURL fixture.store the_client = Some (p, h')
    ∧ baseURL the_client ≠ Some p
    ∧ h' !! p = (baseURL the_client ≫= (fixture.store !!.))
    ∧ ∀ u' : URL,
        (baseURL the_client ≫= (<[p := u']> h' !!.))
        = (baseURL the_client ≫= (fixture.store !!.))
        ∧ ∀ path method hs params body,
            served_performRequest (Fail "connection refused")
              (<[p := u']> h') the_client path method hs params body
            = served_performRequest (Fail "connection refused")
                fixture.store the_client path method hs params body.
Proof.
  eexists _, _. split; [vm_compute; reflexivity|].
  apply (C9_BaseURL_returns_a_defensive_copy
           (fixture.Unmarshal fixture.errorBodies)
           fixture.Parse fixture.URL_String fixture.Query fixture.Encode
           fixture.CanonicalMIMEHeaderKey fixture.NewRequest
           (fixture.Do (Fail "connection refused"))
           fixture.store the_client).
  vm_compute. reflexivity.
Defined.

(** C10 at three envelopes, the third bearing the key of the first. *)
Lemma C10_witness_duplicate_key :
  ∃ kv : gmap string string,
    served_getSecretsFromPayload the_client
      (Body_Data (fixture.payloadOf
                    [fixture.enc1; fixture.enc2; fixture.enc3]))
    = (Some kv, None)
    ∧ (∀ k, kv !! k
            = lastValue k [fixture.record "DB_URL" "postgres://x";
                           fixture.record "API_TOKEN" "t0k3n";
                           fixture.record "DB_URL" "postgres://y"])
    ∧ (size kv
       ≤ length (Data_Secrets
                   (Body_Data (fixture.payloadOf
                                 [fixture.enc1; fixture.enc2; fixture.enc3]))))%nat.
Proof.
  apply (C10_duplicate_keys_last_write_wins
           (fixture.Run fixture.envelopes) (fixture.Unmarshal fixture.records)
           the_client
           (Body_Data (fixture.payloadOf
                         [fixture.enc1; fixture.enc2; fixture.enc3]))
           [fixture.record "DB_URL" "postgres://x";
            fixture.record "API_TOKEN" "t0k3n";
            fixture.record "DB_URL" "postgres://y"]).
  vm_compute. reflexivity.
Defined.

(** The same payload, evaluated: two entries, and [DB_URL] has the value
    of the third envelope. *)
Example duplicate_key_evaluated :
  ∃ kv : gmap string string,
    served_getSecretsFromPayload the_client
      (Body_Data (fixture.payloadOf
                    [fixture.enc1; fixture.enc2; fixture.enc3]))
    = (Some kv, None)
    ∧ size kv = 2%nat
    ∧ kv !! "DB_URL" = Some "postgres://y"
    ∧ kv !! "API_TOKEN" = Some "t0k3n".
Proof.
  eexists. split; [vm_compute; reflexivity|].
  split_and!; vm_compute; reflexivity.
Qed.

(** *** Instances of the further properties *)

Local Abbreviation strict_performRequest answer :=
  (performRequest (fixture.Unmarshal fixture.errorBodies)
     fixture.ParseStrict fixture.URL_String fixture.Query fixture.Encode
     fixture.CanonicalMIMEHeaderKey fixture.NewRequest (fixture.Do answer)).

Local Abbreviation served_Authenticate answer :=
  (Authenticate (fixture.Unmarshal fixture.errorBodies)
     fixture.Parse fixture.URL_String fixture.Query fixture.Encode
     fixture.CanonicalMIMEHeaderKey fixture.NewRequest (fixture.Do answer)).

Local Abbreviation served_NewClient :=
  (NewClient fixture.Parse fixture.setAuth).

Local Abbreviation served_ValidateStore :=
  (ValidateStore fixture.ValidateSecretSelector).

(** A nil error at a 200 with one envelope. *)
Lemma performRequest_nil_error_witness :
  ∃ req r bodyResponse,
    served_buildRequest fixture.store the_client "/secrets" "GET" [] ∅
      (Some "") = Some (inl req)
    ∧ fixture.Do (Ok (json_answer [fixture.enc1])) (httpClient the_client) req
      = Ok r
    ∧ Response_Body r = Ok bodyResponse
    ∧ 200 ≤ StatusCode r ≤ 399
    ∧ Some {| HTTPResponse := json_answer [fixture.enc1];
              Body := Some (fixture.bodyOf [fixture.enc1]) |}
      = Some {| HTTPResponse := r; Body := Some bodyResponse |}.
Proof.
  apply (performRequest_nil_error_has_response
           (fixture.Unmarshal fixture.errorBodies)
           fixture.Parse fixture.URL_String fixture.Query fixture.Encode
           fixture.CanonicalMIMEHeaderKey fixture.NewRequest
           (fixture.Do (Ok (json_answer [fixture.enc1])))
           fixture.store the_client "/secrets" "GET" [] ∅ (Some "")).
  vm_compute. reflexivity.
Defined.

(** The error of a 404 with an error envelope has no data. *)
Lemma performRequest_error_data_witness :
  APIError_Data {| APIError_Err := None; APIError_Message := "not found";
                   APIError_Data := "" |} = "".
Proof.
  apply (performRequest_error_has_no_data
           (fixture.Unmarshal fixture.errorBodies)
           fixture.Parse fixture.URL_String fixture.Query fixture.Encode
           fixture.CanonicalMIMEHeaderKey fixture.NewRequest
           (fixture.Do (Ok (fixture.response 404 "application/json"
                                             fixture.notFoundBody)))
           fixture.store the_client "/secrets" "GET" [] ∅ (Some "")
           (Some {| HTTPResponse :=
                      fixture.response 404 "application/json"
                                       fixture.notFoundBody;
                    Body := Some fixture.notFoundBody |})).
  vm_compute. reflexivity.
Defined.

(** A 404 with the error envelope of the service. *)
Lemma performRequest_JSON_rejection_witness :
  ∃ apiErr,
    served_performRequest
      (Ok (fixture.response 404 "application/json" fixture.notFoundBody))
      fixture.store the_client "/secrets" "GET" [] ∅ (Some "")
    = Some (Some {| HTTPResponse :=
                      fixture.response 404 "application/json"
                                       fixture.notFoundBody;
                    Body := Some fixture.notFoundBody |},
            Some apiErr)
    ∧ APIError_Err apiErr = None
    ∧ APIError_Message apiErr = "not found"
    ∧ APIError_Error apiErr = "Onboardbase API Client Error: not found".
Proof.
  eapply (performRequest_JSON_rejection_joins_messages
            (fixture.Unmarshal fixture.errorBodies)
            fixture.Parse fixture.URL_String fixture.Query fixture.Encode
            fixture.CanonicalMIMEHeaderKey fixture.NewRequest
            (fixture.Do (Ok (fixture.response 404 "application/json"
                                              fixture.notFoundBody)))
            fixture.store the_client "/secrets" "GET" [] ∅ (Some "") _
            (fixture.response 404 "application/json" fixture.notFoundBody)
            fixture.notFoundBody
            {| Messages := ["not found"]; Success := false |}).
  all: vm_compute; reflexivity.
Defined.

(** A 502 that announces JSON and sends HTML. *)
Lemma performRequest_malformed_error_body_witness :
  served_performRequest
    (Ok (fixture.response 502 "application/json" "<h1>Bad Gateway</h1>"))
    fixture.store the_client "/secrets" "GET" [] ∅ (Some "")
  = Some (Some {| HTTPResponse :=
                    fixture.response 502 "application/json"
                                     "<h1>Bad Gateway</h1>";
                  Body := Some "<h1>Bad Gateway</h1>" |},
          Some {| APIError_Err :=
                    Some "invalid character looking for beginning of value";
                  APIError_Message := "unable to unmarshal error JSON payload";
                  APIError_Data := "" |}).
Proof.
  eapply (performRequest_malformed_error_body
            (fixture.Unmarshal fixture.errorBodies)
            fixture.Parse fixture.URL_String fixture.Query fixture.Encode
            fixture.CanonicalMIMEHeaderKey fixture.NewRequest
            (fixture.Do (Ok (fixture.response 502 "application/json"
                                              "<h1>Bad Gateway</h1>")))
            fixture.store the_client "/secrets" "GET" [] ∅ (Some "")).
  all: vm_compute; reflexivity.
Defined.

(** A 200 whose body breaks off. *)
Lemma performRequest_read_failure_witness :
  served_performRequest (Ok (fixture.truncated 200 "application/json"))
    fixture.store the_client "/secrets" "GET" [] ∅ (Some "")
  = Some (Some {| HTTPResponse := fixture.truncated 200 "application/json";
                  Body := None |},
          Some {| APIError_Err := Some "unexpected EOF";
                  APIError_Message := "unable to read entire response body";
                  APIError_Data := "" |}).
Proof.
  eapply (performRequest_read_failure_keeps_response
            (fixture.Unmarshal fixture.errorBodies)
            fixture.Parse fixture.URL_String fixture.Query fixture.Encode
            fixture.CanonicalMIMEHeaderKey fixture.NewRequest
            (fixture.Do (Ok (fixture.truncated 200 "application/json")))
            fixture.store the_client "/secrets" "GET" [] ∅ (Some "")).
  all: vm_compute; reflexivity.
Defined.

(** A request that times out. *)
Lemma performRequest_transport_failure_witness :
  served_performRequest (Fail "context deadline exceeded")
    fixture.store the_client "/secrets" "GET" [] ∅ (Some "")
  = Some (None,
          Some {| APIError_Err := Some "context deadline exceeded";
                  APIError_Message := "unable to load response";
                  APIError_Data := "" |}).
Proof.
  eapply (performRequest_transport_failure
            (fixture.Unmarshal fixture.errorBodies)
            fixture.Parse fixture.URL_String fixture.Query fixture.Encode
            fixture.CanonicalMIMEHeaderKey fixture.NewRequest
            (fixture.Do (Fail "context deadline exceeded"))
            fixture.store the_client "/secrets" "GET" [] ∅ (Some "")).
  all: vm_compute; reflexivity.
Defined.

(** A path that holds a line feed. *)
Lemma performRequest_invalid_URL_witness :
  strict_performRequest (Fail "context deadline exceeded")
    fixture.store the_client ("/secrets" +:+ LF) "GET" [] ∅ (Some "")
  = Some (None,
          Some {| APIError_Err :=
                    Some "net/url: invalid control character in URL";
                  APIError_Message :=
                    "invalid API URL: " +:+ fixture.URL_String fixture.base
                    +:+ "/secrets" +:+ LF;
                  APIError_Data := "" |}).
Proof.
  apply (performRequest_invalid_URL
           (fixture.Unmarshal fixture.errorBodies)
           fixture.ParseStrict fixture.URL_String fixture.Query fixture.Encode
           fixture.CanonicalMIMEHeaderKey fixture.NewRequest
           (fixture.Do (Fail "context deadline exceeded"))
           fixture.store the_client ("/secrets" +:+ LF) "GET" [] ∅ (Some "")
           1%positive fixture.base).
  all: vm_compute; reflexivity.
Defined.

(** The query of the request of [GetSecret]. *)
Lemma buildRequest_query_witness :
  ∃ req,
    served_buildRequest fixture.store the_client "/secrets" "GET" []
      (SecretRequest_buildQueryParams DB_URL_request) (Some "")
    = Some (inl req)
    ∧ ∃ reqURL req0 (query : Values),
        fixture.NewRequest "GET" (fixture.URL_String reqURL) (Some "") = Ok req0
        ∧ RawQuery (Request_URL req) = fixture.Encode query
        ∧ (∀ k v,
              SecretRequest_buildQueryParams DB_URL_request !! k = Some v →
              query !! k
              = Some (default [] (fixture.Query (Request_URL req0) !! k)
                        ++ [v]))
        ∧ (∀ k, SecretRequest_buildQueryParams DB_URL_request !! k = None →
                query !! k = fixture.Query (Request_URL req0) !! k)
        ∧ Path (Request_URL req) = Path (Request_URL req0)
        ∧ Host (Request_URL req) = Host (Request_URL req0)
        ∧ Request_Method req = Request_Method req0
        ∧ Request_Body req = Request_Body req0.
Proof.
  eexists. split; [vm_compute; reflexivity|].
  apply (buildRequest_appends_query_parameters
           fixture.Parse fixture.URL_String fixture.Query fixture.Encode
           fixture.CanonicalMIMEHeaderKey fixture.NewRequest
           fixture.store the_client "/secrets" "GET" []
           (SecretRequest_buildQueryParams DB_URL_request) (Some "")).
  vm_compute. reflexivity.
Defined.

(** The headers of a POST without caller header. *)
Lemma buildRequest_default_headers_witness :
  ∃ req,
    served_buildRequest fixture.store the_client "/secrets" "POST" [] ∅
      (Some "") = Some (inl req)
    ∧ served_Header_Get (Request_Header req) "accept" = "application/json"
    ∧ served_Header_Get (Request_Header req) "content-type"
      = (if bool_decide ("POST" = "POST") then "application/json" else "")
    ∧ served_Header_Get (Request_Header req) "user-agent"
      = UserAgent the_client
    ∧ served_Header_Get (Request_Header req) "api_key"
      = OnboardbaseAPIKey the_client
    ∧ ∀ k, k ∉ fixture.CanonicalMIMEHeaderKey
                 <$> ["content-type"; "accept"; "user-agent"; "api_key"] →
           Request_Header req !! k = None.
Proof.
  eexists. split; [vm_compute; reflexivity|].
  apply (buildRequest_default_headers
           fixture.Parse fixture.URL_String fixture.Query fixture.Encode
           fixture.CanonicalMIMEHeaderKey fixture.NewRequest
           fixture.store the_client "/secrets" "POST" ∅ (Some "")).
  - apply (bool_decide_unpack _). vm_compute. exact I.
  - intros m u b req0. unfold fixture.NewRequest.
    destruct (fixture.Parse u); [|discriminate].
    intros Hreq0. injection Hreq0 as <-. reflexivity.
  - vm_compute. reflexivity.
Defined.

(** [Authenticate] at a 200. *)
Lemma Authenticate_witness :
  served_Authenticate (Ok (fixture.response 200 "application/json" "[]"))
    fixture.store the_client = Some None
  ↔ 200 ≤ StatusCode (fixture.response 200 "application/json" "[]") ≤ 399.
Proof.
  eapply (Authenticate_succeeds_iff_status
            (fixture.Unmarshal fixture.errorBodies)
            fixture.Parse fixture.URL_String fixture.Query fixture.Encode
            fixture.CanonicalMIMEHeaderKey fixture.NewRequest
            (fixture.Do (Ok (fixture.response 200 "application/json" "[]")))
            fixture.store the_client).
  all: vm_compute; reflexivity.
Defined.

(** A payload whose second envelope is no ciphertext. *)
Lemma getSecretsFromPayload_decrypt_failure_witness :
  served_getSecretsFromPayload the_client
    (Body_Data (fixture.payloadOf [fixture.enc1; "garbage"; fixture.enc2]))
  = (None, Some {| APIError_Err := Some "invalid ciphertext";
                   APIError_Message := "unable to decrypt secret payload";
                   APIError_Data := "garbage" |}).
Proof.
  apply (getSecretsFromPayload_decrypt_failure
           (fixture.Run fixture.envelopes) (fixture.Unmarshal fixture.records)
           the_client
           (Body_Data (fixture.payloadOf
                         [fixture.enc1; "garbage"; fixture.enc2]))
           [fixture.enc1] [fixture.record "DB_URL" "postgres://x"]
           "garbage" "invalid ciphertext" [fixture.enc2]).
  all: vm_compute; reflexivity.
Defined.

(** A payload whose second envelope holds no JSON document. *)
Lemma getSecretsFromPayload_decode_failure_witness :
  served_getSecretsFromPayload the_client
    (Body_Data (fixture.payloadOf
                  [fixture.enc1; fixture.encBad; fixture.enc2]))
  = (None,
     Some {| APIError_Err :=
               Some "invalid character looking for beginning of value";
             APIError_Message := "unable to unmarshal secret payload";
             APIError_Data := "DB_URL=postgres://x" |}).
Proof.
  apply (getSecretsFromPayload_decode_failure
           (fixture.Run fixture.envelopes) (fixture.Unmarshal fixture.records)
           the_client
           (Body_Data (fixture.payloadOf
                         [fixture.enc1; fixture.encBad; fixture.enc2]))
           [fixture.enc1] [fixture.record "DB_URL" "postgres://x"]
           fixture.encBad "DB_URL=postgres://x"
           "invalid character looking for beginning of value" [fixture.enc2]).
  all: vm_compute; reflexivity.
Defined.

(** [GetSecret] at a payload that bears [DB_URL] twice. *)
Lemma GetSecret_returns_last_value_witness :
  served_GetSecret
    (Ok (json_answer [fixture.enc1; fixture.enc2; fixture.enc3]))
    fixture.store the_client DB_URL_request
  = Some (Some {| SecretResponse_Name := "DB_URL";
                  SecretResponse_Value := "postgres://y" |}, None).
Proof.
  apply (GetSecret_returns_last_value
           (fixture.Run fixture.envelopes) (fixture.Unmarshal fixture.records)
           (fixture.Unmarshal fixture.bodies)
           (fixture.Unmarshal fixture.errorBodies)
           fixture.Parse fixture.URL_String fixture.Query fixture.Encode
           fixture.CanonicalMIMEHeaderKey fixture.NewRequest
           (fixture.Do
              (Ok (json_answer [fixture.enc1; fixture.enc2; fixture.enc3])))
           fixture.store the_client DB_URL_request
           {| HTTPResponse :=
                json_answer [fixture.enc1; fixture.enc2; fixture.enc3];
              Body := Some (fixture.bodyOf
                              [fixture.enc1; fixture.enc2; fixture.enc3]) |}
           (fixture.payloadOf [fixture.enc1; fixture.enc2; fixture.enc3])
           [fixture.record "DB_URL" "postgres://x";
            fixture.record "API_TOKEN" "t0k3n";
            fixture.record "DB_URL" "postgres://y"]
           "postgres://y").
  - vm_compute. reflexivity.
  - vm_compute. reflexivity.
  - vm_compute. reflexivity.
  - vm_compute. reflexivity.
  - discriminate.
Defined.

(** Both read operations when the connection is refused. *)
Lemma read_operations_transport_error_witness :
  served_GetSecrets (Fail "connection refused")
    fixture.store the_client scope_request
  = Some (None, Some {| APIError_Err := Some "connection refused";
                        APIError_Message := "unable to load response";
                        APIError_Data := "" |})
  ∧ served_GetSecret (Fail "connection refused")
      fixture.store the_client DB_URL_request
    = Some (None, Some {| APIError_Err := Some "connection refused";
                          APIError_Message := "unable to load response";
                          APIError_Data := "" |}).
Proof.
  apply (read_operations_propagate_transport_error
           (fixture.Run fixture.envelopes) (fixture.Unmarshal fixture.records)
           (fixture.Unmarshal fixture.bodies)
           (fixture.Unmarshal fixture.errorBodies)
           fixture.Parse fixture.URL_String fixture.Query fixture.Encode
           fixture.CanonicalMIMEHeaderKey fixture.NewRequest
           (fixture.Do (Fail "connection refused"))
           fixture.store the_client "proj" "dev" "DB_URL" None).
  vm_compute. reflexivity.
Defined.

(** Both read operations at a 200 that sends a login page. *)
Lemma read_operations_malformed_body_witness :
  served_GetSecrets
    (Ok (fixture.response 200 "text/html" "<h1>Sign in</h1>"))
    fixture.store the_client scope_request
  = Some (None,
          Some {| APIError_Err :=
                    Some "invalid character looking for beginning of value";
                  APIError_Message := "unable to unmarshal secret payload";
                  APIError_Data := "<h1>Sign in</h1>" |})
  ∧ served_GetSecret
      (Ok (fixture.response 200 "text/html" "<h1>Sign in</h1>"))
      fixture.store the_client DB_URL_request
    = Some (None,
            Some {| APIError_Err :=
                      Some "invalid character looking for beginning of value";
                    APIError_Message := "unable to unmarshal secret payload";
                    APIError_Data := "<h1>Sign in</h1>" |}).
Proof.
  apply (read_operations_report_malformed_body
           (fixture.Run fixture.envelopes) (fixture.Unmarshal fixture.records)
           (fixture.Unmarshal fixture.bodies)
           (fixture.Unmarshal fixture.errorBodies)
           fixture.Parse fixture.URL_String fixture.Query fixture.Encode
           fixture.CanonicalMIMEHeaderKey fixture.NewRequest
           (fixture.Do
              (Ok (fixture.response 200 "text/html" "<h1>Sign in</h1>")))
           fixture.store the_client "proj" "dev" "DB_URL"
           {| HTTPResponse :=
                fixture.response 200 "text/html" "<h1>Sign in</h1>";
              Body := Some "<h1>Sign in</h1>" |}).
  - vm_compute. reflexivity.
  - vm_compute. reflexivity.
Defined.

(** The two read operations at two envelopes. *)
Lemma GetSecret_agrees_with_GetSecrets_witness :
  ∃ (kv : gmap string string) body,
    served_GetSecrets (Ok (json_answer [fixture.enc1; fixture.enc2]))
      fixture.store the_client scope_request
    = Some (Some {| SecretsResponse_Secrets := Some kv;
                    SecretsResponse_Body := body |}, None)
    ∧ kv !! "DB_URL" = Some "postgres://x".
Proof.
  apply (GetSecret_agrees_with_GetSecrets
           (fixture.Run fixture.envelopes) (fixture.Unmarshal fixture.records)
           (fixture.Unmarshal fixture.bodies)
           (fixture.Unmarshal fixture.errorBodies)
           fixture.Parse fixture.URL_String fixture.Query fixture.Encode
           fixture.CanonicalMIMEHeaderKey fixture.NewRequest
           (fixture.Do (Ok (json_answer [fixture.enc1; fixture.enc2])))
           fixture.store the_client "proj" "dev" "DB_URL"
           {| SecretResponse_Name := "DB_URL";
              SecretResponse_Value := "postgres://x" |} None).
  vm_compute. reflexivity.
Defined.


(** Setting a base URL with and without its trailing slash. *)
Lemma SetBaseURL_trailing_slash_witness :
  SetBaseURL fixture.Parse fixture.store the_client
    ("https://eu.onboardbase.com/api/v2" +:+ "/")
  = SetBaseURL fixture.Parse fixture.store the_client
      "https://eu.onboardbase.com/api/v2".
Proof.
  apply (SetBaseURL_ignores_one_trailing_slash
           fixture.Parse fixture.store the_client
           "https://eu.onboardbase.com/api/v2").
  vm_compute. reflexivity.
Defined.


(** [NewClient] and [ValidateStore] on a store of another provider. *)
Lemma store_without_Onboardbase_provider_witness :
  served_NewClient fixture.store (context_handle 1) fixture.otherStore
    (kclient_handle 1) "default"
  = Some (fixture.store,
          (None, Some "missing or invalid Onboardbase SecretStore"))
  ∧ served_ValidateStore fixture.otherStore = None.
Proof.
  apply (store_without_Onboardbase_provider
           fixture.Parse fixture.setAuth fixture.ValidateSecretSelector
           fixture.store (context_handle 1) fixture.otherStore
           (kclient_handle 1) "default").
  reflexivity.
Defined.

(** [NewClient] on a store whose secrets resolve. *)
Lemma NewClient_success_witness :
  ∃ h' client onboardbase,
    served_NewClient ∅ (context_handle 1)
      (fixture.storeOf "obb-api-key" "obb-passcode") (kclient_handle 1)
      "default" = Some (h', (Some client, None))
    ∧ Client_onboardbase client = Some onboardbase
    ∧ OnboardbaseAPIKey onboardbase = "obb_key"
    ∧ OnboardbasePassCode onboardbase = "p1"
    ∧ is_Some (baseURL onboardbase ≫= (h' !!.))
    ∧ Client_project client = "proj"
    ∧ Client_environment client = "dev"
    ∧ Client_onboardbaseAPIKey client = "obb_key"
    ∧ Client_onboardbasePasscode client = "p1".
Proof.
  apply (NewClient_success
           fixture.Parse fixture.setAuth ∅ (context_handle 1)
           (fixture.storeOf "obb-api-key" "obb-passcode") (kclient_handle 1)
           "default"
           {| Provider_Auth :=
                Some {| Auth_OnboardbaseAPIKey := fixture.selector "obb-api-key";
                        Auth_OnboardbasePasscode :=
                          fixture.selector "obb-passcode" |};
              Provider_Project := "proj"; Provider_Environment := "dev" |}
           {| Client_kube := kclient_handle 1;
              Client_store :=
                Some {| Provider_Auth :=
                          Some {| Auth_OnboardbaseAPIKey :=
                                    fixture.selector "obb-api-key";
                                  Auth_OnboardbasePasscode :=
                                    fixture.selector "obb-passcode" |};
                        Provider_Project := "proj";
                        Provider_Environment := "dev" |};
              Client_namespace := "default";
              Client_storeKind := "SecretStore";
              Client_onboardbaseAPIKey := "obb_key";
              Client_onboardbasePasscode := "p1";
              Client_onboardbase := None;
              Client_project := "";
              Client_environment := "" |}
           {| Provider_Auth :=
                Some {| Auth_OnboardbaseAPIKey := fixture.selector "obb-api-key";
                        Auth_OnboardbasePasscode :=
                          fixture.selector "obb-passcode" |};
              Provider_Project := "proj"; Provider_Environment := "dev" |}
           fixture.base).
  - reflexivity.
  - reflexivity.
  - reflexivity.
  - vm_compute. reflexivity.
Defined.

(** [NewClient] on a cluster that lacks the secret. *)
Lemma NewClient_setAuth_failure_witness :
  NewClient fixture.Parse fixture.setAuth_missing ∅ (context_handle 1)
    (fixture.storeOf "obb-api-key" "obb-passcode") (kclient_handle 1)
    "default"
  = Some (∅, (None, Some "cannot get Kubernetes secret")).
Proof.
  eapply (NewClient_setAuth_failure
            fixture.Parse fixture.setAuth_missing ∅ (context_handle 1)
            (fixture.storeOf "obb-api-key" "obb-passcode") (kclient_handle 1)
            "default").
  - reflexivity.
  - reflexivity.
Defined.

(** [ValidateStore] on a store whose API key reference names no secret. *)
Lemma ValidateStore_errors_witness :
  (∀ err, served_ValidateStore (fixture.storeOf "" "obb-passcode")
          = Some (Some err) →
          strings.HasPrefix err "invalid store: " = true)
  ∧ (∀ cause,
        fixture.ValidateSecretSelector (fixture.storeOf "" "obb-passcode")
          (fixture.selector "") = Some cause →
        served_ValidateStore (fixture.storeOf "" "obb-passcode")
        = Some (Some ("invalid store: " +:+ cause)))
  ∧ (fixture.ValidateSecretSelector (fixture.storeOf "" "obb-passcode")
       (fixture.selector "") = None →
     Selector_Name (fixture.selector "") = "" →
     served_ValidateStore (fixture.storeOf "" "obb-passcode")
     = Some (Some "invalid store: onboardbaseAPIKey.name cannot be empty")).
Proof.
  apply (ValidateStore_errors
           fixture.ValidateSecretSelector (fixture.storeOf "" "obb-passcode")
           {| Auth_OnboardbaseAPIKey := fixture.selector "";
              Auth_OnboardbasePasscode := fixture.selector "obb-passcode" |}).
  reflexivity.
Defined.

(** The same store, evaluated, and a store that passes. *)
Example ValidateStore_evaluated :
  served_ValidateStore (fixture.storeOf "" "obb-passcode")
  = Some (Some "invalid store: onboardbaseAPIKey.name cannot be empty")
  ∧ served_ValidateStore (fixture.storeOf "obb-api-key" "")
    = Some (Some "invalid store: onboardbasePasscode.name cannot be empty")
  ∧ served_ValidateStore (fixture.storeOf "obb-api-key" "obb-passcode")
    = Some None.
Proof. split_and!; vm_compute; reflexivity. Qed.
